(** * IoT temperature watch: the two polling components of the frontend

    A shallow embedding of [TemperatureDisplay] / [TemperatureCard] (the
    latest-reading poller) and of [TemperatureChart] (the history poller):
    the values they hold, the continuation each fetch runs when it settles,
    the mount / interval / unmount life cycle, and what each render returns. *)

From Stdlib Require Import ZArith List String Ascii Bool Lia.
From Stdlib Require Import SpecFloat DecimalString.
Import ListNotations.
Local Open Scope string_scope.
Local Open Scope Z_scope.

(** ** JavaScript numbers: IEEE 754 binary64 *)

Module Num.

Definition prec : Z := 53.
Definition emax : Z := 1024.

(** A Number value.  Values coming out of [JSON.parse] and out of the
    operations below are canonical binary64 floats. *)
Definition number : Type := spec_float.

Definition zero : number := S754_zero false.
Definition NaN : number := S754_nan.
Definition Infinity : number := S754_infinity false.
Definition neg_Infinity : number := S754_infinity true.

Definition add (x y : number) : number := SFadd prec emax x y.
Definition sub (x y : number) : number := SFsub prec emax x y.
Definition div (x y : number) : number := SFdiv prec emax x y.
Definition ltb (x y : number) : bool := SFltb x y.
Definition leb (x y : number) : bool := SFleb x y.

(** The Number nearest to the integer [z] (exact below 2^53). *)
Definition of_Z (z : Z) : number := binary_normalize prec emax z 0 false.

(** The Number nearest to [m * 2^e]. *)
Definition of_dyadic (m e : Z) : number := binary_normalize prec emax m e false.

Definition is_nan (x : number) : bool :=
  match x with S754_nan => true | _ => false end.

Definition is_zero (x : number) : bool :=
  match x with S754_zero _ => true | _ => false end.

(** No member is NaN; [JSON.parse] never produces one. *)
Definition no_nan (ns : list number) : Prop :=
  Forall (fun n => is_nan n = false) ns.

(** ToBoolean on a Number: false exactly on +0, -0 and NaN. *)
Definition truthy (x : number) : bool := negb (is_zero x || is_nan x).

(** Decimal digits of a natural number, ["0"] for zero. *)
Definition digits (n : Z) : string :=
  NilZero.string_of_uint (N.to_uint (Z.to_N n)).

(** The integer [n] for which [n / 10 - m * 2^e] is closest to zero,
    the larger one on a tie. *)
Definition tenths (m : positive) (e : Z) : Z :=
  match e with
  | Zneg k => (20 * Zpos m + 2 ^ Zpos k) / 2 ^ (Zpos k + 1)
  | _ => 10 * Zpos m * 2 ^ e
  end.

(** [m * 2^e >= 10^21] *)
Definition huge (m : positive) (e : Z) : bool :=
  match e with
  | Zneg k => 10 ^ 21 * 2 ^ Zpos k <=? Zpos m
  | _ => 10 ^ 21 <=? Zpos m * 2 ^ e
  end.

(** Inserts the decimal point before the last digit of the digits of [n]. *)
Definition point1 (n : Z) : string :=
  digits (n / 10) ++ "." ++ digits (n mod 10).

(** What [toFixed] returns: a string of digits, or, from 10^21 on, whatever
    [Number::toString] gives for the magnitude (kept symbolic). *)
Inductive numeral : Type :=
| Text (s : string)
| ViaToString (negative : bool) (magnitude : number).

(** [Number.prototype.toFixed(1)]: the sign is that of the value (none for
    -0), the digits are those of the nearest number of tenths. *)
Definition toFixed1 (x : number) : numeral :=
  match x with
  | S754_nan => Text "NaN"
  | S754_infinity s => Text (if s then "-Infinity" else "Infinity")
  | S754_zero _ => Text "0.0"
  | S754_finite s m e =>
      if huge m e then ViaToString s (S754_finite false m e)
      else Text ((if s then "-" else "") ++ point1 (tenths m e))
  end.

(** ToIntegerOrInfinity on a finite Number: truncation towards zero. *)
Definition trunc (x : number) : option Z :=
  match x with
  | S754_zero _ => Some 0
  | S754_finite s m e =>
      let a := match e with
               | Zneg k => Zpos m / 2 ^ Zpos k
               | _ => Zpos m * 2 ^ e
               end in
      Some (if s then - a else a)
  | _ => None
  end.

End Num.

Import Num.

(** ** Values and the host *)

(** The primitive values the JSON payloads put into the components' state.
    [JUndefined] is what reading a field the payload lacks gives. *)
Inductive jsval : Type :=
| JUndefined
| JNull
| JNum (x : number)
| JStr (s : string).

(** ToBoolean *)
Definition truthy (v : jsval) : bool :=
  match v with
  | JUndefined | JNull => false
  | JNum x => Num.truthy x
  | JStr s => negb (s =? "")%string
  end.

(** [v === "..."] against a string literal *)
Definition is_string (lit : string) (v : jsval) : bool :=
  match v with
  | JStr s => (s =? lit)%string
  | _ => false
  end.

(** Evaluating a builtin either returns or throws. *)
Inductive completion (A : Type) : Type :=
| Normal (a : A)
| Throw (message : string).
Arguments Normal {A} a.
Arguments Throw {A} message.

(** What the browser decides:  how [Date] parses a string into a time value
    in milliseconds since the epoch ([None] when it does not recognise it),
    and the offset of the viewer's local time at a given instant. *)
Record host : Type := {
  Date_parse : string -> option Z;
  LocalTZA : Z -> Z
}.

Module Date.

(** A Date object's time value; [None] is NaN, an invalid date. *)
Definition date : Type := option Z.

Definition TimeClip (x : number) : date :=
  match Num.trunc x with
  | Some t => if Z.abs t <=? 8640000000000000 then Some t else None
  | None => None
  end.

(** [new Date(value)] on a primitive.  It never throws. *)
Definition construct (h : host) (value : jsval) : completion date :=
  Normal match value with
         | JStr s => Date_parse h s
         | JNum x => TimeClip x
         | JNull => Some 0
         | JUndefined => None
         end.

Definition two_digit (n : Z) : string :=
  if n <? 10 then "0" ++ Num.digits n else Num.digits n.

Definition msPerMinute : Z := 60000.
Definition msPerHour : Z := 3600000.

(** [toLocaleTimeString('en-US', { hour12: false, hour: '2-digit',
    minute: '2-digit' })]: hour and minute of the local time, two digits
    each, hours from 00 to 23.  An invalid date gives the string
    ["Invalid Date"]; it does not throw. *)
Definition toLocaleTimeString (h : host) (d : date) : completion string :=
  Normal match d with
         | None => "Invalid Date"
         | Some t =>
             let local := t + LocalTZA h t in
             two_digit ((local / msPerHour) mod 24) ++ ":" ++
             two_digit ((local / msPerMinute) mod 60)
         end.

(** The two calls in sequence, as both [formatTime] and [formatTimestamp]
    make them inside their [try]. *)
Definition format (h : host) (value : jsval) : completion string :=
  match construct h value with
  | Normal d => toLocaleTimeString h d
  | Throw m => Throw m
  end.

End Date.

(** A browser in UTC that recognises the date-time interchange format
    [YYYY-MM-DDTHH:mm:ss.sssZ] (milliseconds optional) and nothing else. *)
Module UtcHost.

Definition digit (c : ascii) : option Z :=
  let n := Z.of_nat (nat_of_ascii c) in
  if (48 <=? n) && (n <=? 57) then Some (n - 48) else None.

Fixpoint number_of (cs : list ascii) (acc : Z) : option Z :=
  match cs with
  | [] => Some acc
  | c :: cs' =>
      match digit c with
      | Some d => number_of cs' (10 * acc + d)
      | None => None
      end
  end.

Definition field (s : string) (start len : nat) : option Z :=
  let cs := list_ascii_of_string (substring start len s) in
  if Nat.eqb (List.length cs) len then number_of cs 0 else None.

Definition is_leap (y : Z) : bool :=
  ((y mod 4 =? 0) && negb (y mod 100 =? 0)) || (y mod 400 =? 0).

Definition days_in_month (y m : Z) : Z :=
  if m =? 2 then (if is_leap y then 29 else 28)
  else if (m =? 4) || (m =? 6) || (m =? 9) || (m =? 11) then 30
  else 31.

(** Days from 1970-01-01 to the given civil date. *)
Definition days_from_civil (y m d : Z) : Z :=
  let y' := if m <=? 2 then y - 1 else y in
  let era := y' / 400 in
  let yoe := y' - era * 400 in
  let doy := (153 * (if m <=? 2 then m + 9 else m - 3) + 2) / 5 + d - 1 in
  let doe := yoe * 365 + yoe / 4 - yoe / 100 + doy in
  era * 146097 + doe - 719468.

Definition separators (s : string) (l : list (nat * string)) : bool :=
  forallb (fun p => (substring (fst p) 1 s =? snd p)%string) l.

Definition parse (s : string) : option Z :=
  let n := String.length s in
  let shape :=
    separators s [(4, "-"); (7, "-"); (10, "T"); (13, ":"); (16, ":")]%nat &&
    ((Nat.eqb n 20 && separators s [(19, "Z")]%nat) ||
     (Nat.eqb n 24 && separators s [(19, "."); (23, "Z")]%nat)) in
  if shape then
    match field s 0 4, field s 5 2, field s 8 2,
          field s 11 2, field s 14 2, field s 17 2 with
    | Some y, Some mo, Some d, Some hh, Some mi, Some ss =>
        let ms := if Nat.eqb n 24 then field s 20 3 else Some 0 in
        match ms with
        | Some ms =>
            if (1 <=? mo) && (mo <=? 12) && (1 <=? d) && (d <=? days_in_month y mo)
               && (hh <=? 23) && (mi <=? 59) && (ss <=? 59)
            then Some ((((days_from_civil y mo d * 24 + hh) * 60 + mi) * 60 + ss) * 1000 + ms)
            else None
        | None => None
        end
    | _, _, _, _, _, _ => None
    end
  else None.

Definition utc : host := {| Date_parse := parse; LocalTZA := fun _ => 0 |}.

End UtcHost.

(** ** How a fetch settles *)

(** The body of a response, seen through [response.json()]: text that is
    not JSON (the promise rejects), the JSON value [null] (reading a field
    of it throws a TypeError), or a value whose fields can be read.  The
    messages are the engine's. *)
Inductive body (P : Type) : Type :=
| Malformed (message : string)
| JsonNull (message : string)
| Json (result : P).
Arguments Malformed {P} message.
Arguments JsonNull {P} message.
Arguments Json {P} result.

(** What [fetch] comes back with: a rejection, or a response. *)
Inductive outcome (P : Type) : Type :=
| NetworkError (message : string)
| Response (status : Z) (content : body P).
Arguments NetworkError {P} message.
Arguments Response {P} status content.

(** [response.ok] *)
Definition ok (status : Z) : bool := (200 <=? status) && (status <=? 299).

(** The [try] block shared by both fetch routines, up to the point where
    the parsed result is used: the result, or the [message] of the error
    that reaches the [catch]. *)
Definition awaited {P : Type} (o : outcome P) : completion P :=
  match o with
  | NetworkError m => Throw m
  | Response status content =>
      if negb (ok status) then Throw ("HTTP error! status: " ++ Num.digits status)
      else match content with
           | Malformed m => Throw m
           | JsonNull m => Throw m
           | Json result => Normal result
           end
  end.

(** A fetch failed when the [catch] block runs. *)
Definition failed {P : Type} (o : outcome P) : bool :=
  match awaited o with
  | Throw _ => true
  | Normal _ => false
  end.

(** ** The life cycle of a polling component *)

Module Poller.
Section Poller.

Context {cells effect payload : Type}.

(** The continuation of the fetch routine once its fetch has settled:
    the new contents of the state cells and the calls it made. *)
Variable settle : outcome payload -> cells -> cells * list effect.

(** Whether the current render shows a button bound to the fetch routine. *)
Variable retry_offered : cells -> bool.

(** The period handed to [setInterval], in milliseconds. *)
Definition period : Z := 30000.

Record instance : Type := {
  hooks : cells;                  (* what the setters were last handed; once the
                                     component is unmounted React drops such an
                                     update, and only [calls] tells what the code did *)
  mounted : bool;
  interval : option Z;            (* when the timer fires next; [None] once cleared *)
  pending : nat;                  (* fetches issued and not yet settled *)
  calls : list (bool * effect)    (* calls made so far, each with [mounted] at that time *)
}.

Inductive event : Type :=
| Tick                            (* the interval fires *)
| Settled (o : outcome payload)   (* one pending fetch settles *)
| Retry                           (* the button is clicked *)
| Unmount.

(** The effect of [useEffect(..., [])] on mount: one fetch at once, and
    the timer armed. *)
Definition mount (initial : cells) : instance :=
  {| hooks := initial; mounted := true; interval := Some period;
     pending := 1; calls := [] |}.

(** One event; [None] when the event cannot happen in that state. *)
Definition step (i : instance) (e : event) : option instance :=
  match e with
  | Tick =>
      match interval i with
      | Some due =>
          Some {| hooks := hooks i; mounted := mounted i;
                  interval := Some (due + period);
                  pending := S (pending i); calls := calls i |}
      | None => None
      end
  | Settled o =>
      match pending i with
      | S n =>
          let '(c, made) := settle o (hooks i) in
          Some {| hooks := c; mounted := mounted i; interval := interval i;
                  pending := n;
                  calls := (calls i ++ map (pair (mounted i)) made)%list |}
      | O => None
      end
  | Retry =>
      if mounted i && retry_offered (hooks i)
      then Some {| hooks := hooks i; mounted := mounted i;
                   interval := interval i;
                   pending := S (pending i); calls := calls i |}
      else None
  | Unmount =>
      if mounted i
      then Some {| hooks := hooks i; mounted := false; interval := None;
                   pending := pending i; calls := calls i |}
      else None
  end.

Fixpoint run (i : instance) (es : list event) : option instance :=
  match es with
  | [] => Some i
  | e :: es' =>
      match step i e with
      | Some i' => run i' es'
      | None => None
      end
  end.

Definition is_settled (e : event) : bool :=
  match e with Settled _ => true | _ => false end.

(** The continuation run once per outcome, in order. *)
Fixpoint settle_each (os : list (outcome payload)) (c : cells)
  : cells * list effect :=
  match os with
  | [] => (c, [])
  | o :: os' =>
      let '(c1, made1) := settle o c in
      let '(c2, made2) := settle_each os' c1 in
      (c2, (made1 ++ made2)%list)
  end.

(** Unmounted, with the timer cleared. *)
Definition torn_down (i : instance) : Prop :=
  mounted i = false /\ interval i = None.

End Poller.
End Poller.

(** ** The latest-reading poller: [TemperatureCard] and [TemperatureDisplay] *)

Module Display.

(** The object held in the [data] cell, and the shape [/api/latest]
    answers with. *)
Record reading : Type := {
  temperature : jsval;
  time : jsval;
  trend : jsval
}.

Record state : Type := {
  data : reading;
  loading : bool
}.

(** [useState] initial values *)
Definition initial : state :=
  {| data := {| temperature := JNull; time := JNull; trend := JStr "stable" |};
     loading := true |}.

Definition formatTime (h : host) (timeString : jsval) : string :=
  if negb (truthy timeString) then "--:--"
  else match Date.format h timeString with
       | Normal s => s
       | Throw _ => "--:--"
       end.

Inductive icon : Type := ArrowUp | ArrowDown.

(** The block under the reading: an icon and a caption in one colour. *)
Record indicator : Type := {
  arrow : icon;
  colour : string;
  caption : string
}.

Definition Rising : indicator :=
  {| arrow := ArrowUp; colour := "text-red-500"; caption := "Rising" |}.
Definition Falling : indicator :=
  {| arrow := ArrowDown; colour := "text-blue-500"; caption := "Falling" |}.

(** What the card shows: the clock text, the child of the large span
    (the value itself or the placeholder), and the indicator if any. *)
Record card : Type := {
  clock : string;
  shown : jsval;
  direction : option indicator
}.

Definition TemperatureCard (h : host) (r : reading) : card :=
  {| clock := formatTime h (time r);
     shown := match temperature r with
              | JNull => JStr "--"
              | t => t
              end;
     direction := if negb (is_string "stable" (trend r))
                  then Some (if is_string "up" (trend r) then Rising else Falling)
                  else None |}.

Inductive effect : Type :=
| ConsoleError (label message : string)
| SetData (d : reading)
| SetLoading (b : bool).

(** [{ ...prev }] *)
Definition spread (prev : reading) : reading :=
  {| temperature := temperature prev; time := time prev; trend := trend prev |}.

(** [fetchTemperature] from the point where its fetch has settled. *)
Definition fetchTemperature (o : outcome reading) (s : state)
  : state * list effect :=
  match awaited o with
  | Normal result =>
      let d := {| temperature := temperature result;
                  time := time result;
                  trend := trend result |} in
      ({| data := d; loading := false |}, [SetData d; SetLoading false])
  | Throw err =>
      let d := spread (data s) in
      ({| data := d; loading := false |},
       [ConsoleError "Failed to fetch temperature:" err; SetData d; SetLoading false])
  end.

Inductive view : Type :=
| Spinner
| Card (c : card).

Definition TemperatureDisplay (h : host) (s : state) : view :=
  if loading s then Spinner else Card (TemperatureCard h (data s)).

(** The component never renders a button bound to its fetch routine. *)
Definition instance : Type := @Poller.instance state effect.
Definition event : Type := @Poller.event reading.
Definition mount : instance := Poller.mount initial.
Definition step : instance -> event -> option instance :=
  Poller.step fetchTemperature (fun _ => false).
Definition run : instance -> list event -> option instance :=
  Poller.run fetchTemperature (fun _ => false).

(** A run in which the first fetch fails, the timer fires and the second
    fetch succeeds. *)
Definition sample_run : list event :=
  [Poller.Settled (NetworkError "Failed to fetch"); Poller.Tick;
   Poller.Settled (Response 200 (Json
     {| temperature := JNum (Num.of_Z 21);
        time := JStr "2024-01-15T10:30:00Z";
        trend := JStr "up" |}))].

End Display.

(** ** The history poller: [TemperatureChart] *)

Module Chart.

(** An element of [lastTemperatures]: a Number, or JSON [null] for a
    reading whose value is absent. *)
Inductive sample : Type :=
| SNull
| SNum (x : number).

(** ToNumber: [null] becomes +0. *)
Definition ToNumber (v : sample) : number :=
  match v with
  | SNum x => x
  | SNull => Num.zero
  end.

(** The object held in the [temperatureData] cell. *)
Record window : Type := {
  timestamps : list jsval;
  temperatures : list sample;
  count : jsval
}.

(** What [/api/history] answers with; a field is [None] when the body
    lacks it or has [null] there.  [result_count] is its [count]. *)
Record payload : Type := {
  lastTimestamps : option (list jsval);
  lastTemperatures : option (list sample);
  result_count : jsval
}.

Record state : Type := {
  temperatureData : window;
  loading : bool;
  error : jsval
}.

(** [useState] initial values *)
Definition initial : state :=
  {| temperatureData := {| timestamps := []; temperatures := []; count := JNum Num.zero |};
     loading := true;
     error := JNull |}.

Inductive effect : Type :=
| ConsoleError (label message : string)
| SetTemperatureData (w : window)
| SetError (e : jsval)
| SetLoading (b : bool).

(** [x || []] *)
Definition or_empty {A : Type} (x : option (list A)) : list A :=
  match x with
  | Some l => l
  | None => []
  end.

(** [x || 0] *)
Definition or_zero (x : jsval) : jsval :=
  if truthy x then x else JNum Num.zero.

(** [fetchTemperatureHistory] from the point where its fetch has settled. *)
Definition fetchTemperatureHistory (o : outcome payload) (s : state)
  : state * list effect :=
  match awaited o with
  | Normal result =>
      let w := {| timestamps := or_empty (lastTimestamps result);
                  temperatures := or_empty (lastTemperatures result);
                  count := or_zero (result_count result) |} in
      ({| temperatureData := w; loading := false; error := JNull |},
       [SetTemperatureData w; SetError JNull; SetLoading false])
  | Throw message =>
      ({| temperatureData := temperatureData s; loading := false;
          error := JStr message |},
       [ConsoleError "Failed to fetch temperature history:" message;
        SetError (JStr message); SetLoading false])
  end.

Definition formatTimestamp (h : host) (timestamp : jsval) : jsval :=
  match Date.format h timestamp with
  | Normal s => JStr s
  | Throw _ => timestamp
  end.

(** [a[i]]: [None] is [undefined], outside the array. *)
Definition at_index (a : list sample) (i : Z) : option sample :=
  if i <? 0 then None else nth_error a (Z.to_nat i).

(** [v?.toFixed(1)]: [None] is [undefined], the call skipped. *)
Definition optional_toFixed1 (v : option sample) : option numeral :=
  match v with
  | Some (SNum x) => Some (toFixed1 x)
  | Some SNull => None
  | None => None
  end.

(** [a.reduce((a, b) => a + b, 0)] *)
Definition reduce_sum (a : list sample) : number :=
  fold_left (fun acc b => Num.add acc (ToNumber b)) a Num.zero.

Definition is_pos_zero (x : number) : bool :=
  match x with S754_zero false => true | _ => false end.
Definition is_neg_zero (x : number) : bool :=
  match x with S754_zero true => true | _ => false end.

(** The loop of [Math.max] over the coerced arguments. *)
Fixpoint max_from (highest : number) (ns : list number) : number :=
  match ns with
  | [] => highest
  | n :: ns' =>
      if Num.is_nan n then Num.NaN
      else if is_pos_zero n && is_neg_zero highest then max_from n ns'
      else if Num.ltb highest n then max_from n ns'
      else max_from highest ns'
  end.

(** The loop of [Math.min] over the coerced arguments. *)
Fixpoint min_from (lowest : number) (ns : list number) : number :=
  match ns with
  | [] => lowest
  | n :: ns' =>
      if Num.is_nan n then Num.NaN
      else if is_neg_zero n && is_pos_zero lowest then min_from n ns'
      else if Num.ltb n lowest then min_from n ns'
      else min_from lowest ns'
  end.

(** [Math.max(...a)] and [Math.min(...a)] *)
Definition Math_max (a : list sample) : number :=
  max_from Num.neg_Infinity (map ToNumber a).
Definition Math_min (a : list sample) : number :=
  min_from Num.Infinity (map ToNumber a).

Definition length (a : list sample) : Z := Z.of_nat (List.length a).

(** The three figures of the statistics block; [current] is [None] when
    the optional call was skipped and nothing stands before the unit. *)
Record stats : Type := {
  current : option numeral;
  average : numeral;
  range : numeral
}.

(** [temperatures.length > 0 && ( ... )] *)
Definition statistics (a : list sample) : option stats :=
  if 0 <? length a then
    Some {| current := optional_toFixed1 (at_index a (length a - 1));
            average := toFixed1 (Num.div (reduce_sum a) (Num.of_Z (length a)));
            range := toFixed1 (Num.sub (Math_max a) (Math_min a)) |}
  else None.

(** The part of [chartData] that depends on the state. *)
Record chart : Type := {
  reported : jsval;               (* the count in the subtitle *)
  labels : list jsval;
  dataset : list sample;
  block : option stats
}.

Inductive view : Type :=
| Loading
| ErrorView (message : jsval)     (* with the Retry button *)
| ChartView (c : chart).

Definition TemperatureChart (h : host) (s : state) : view :=
  if loading s then Loading
  else if truthy (error s) then ErrorView (error s)
  else ChartView
         {| reported := count (temperatureData s);
            labels := map (formatTimestamp h) (timestamps (temperatureData s));
            dataset := temperatures (temperatureData s);
            block := statistics (temperatures (temperatureData s)) |}.

(** The Retry button is what the error view renders. *)
Definition retry_offered (s : state) : bool :=
  negb (loading s) && truthy (error s).

Definition instance : Type := @Poller.instance state effect.
Definition event : Type := @Poller.event payload.
Definition mount : instance := Poller.mount initial.
Definition step : instance -> event -> option instance :=
  Poller.step fetchTemperatureHistory retry_offered.
Definition run : instance -> list event -> option instance :=
  Poller.run fetchTemperatureHistory retry_offered.

(** A run in which the first fetch fails, the timer fires and the second
    fetch succeeds. *)
Definition sample_run : list event :=
  [Poller.Settled (Response 500 (Malformed "Unexpected token")); Poller.Tick;
   Poller.Settled (Response 200 (Json
     {| lastTimestamps := Some [JStr "2024-01-15T10:30:00Z"];
        lastTemperatures := Some [SNum (Num.of_Z 21)];
        result_count := JNum (Num.of_Z 1) |}))].

End Chart.

(** ** The theme of the chart: [getInitialDark] and the body-class observer *)

Module Theme.

(** What [getInitialDark] reads: whether [window] and its [localStorage]
    exist, what [localStorage.getItem("theme")] returns ([None] is null),
    and whether the [prefers-color-scheme: dark] media query matches. *)
Record browser : Type := {
  has_storage : bool;
  stored_theme : option string;
  prefers_dark : bool
}.

Definition getInitialDark (b : browser) : bool :=
  if has_storage b then
    match stored_theme b with
    | Some theme =>
        if negb (theme =? "")%string then (theme =? "dark")%string
        else prefers_dark b
    | None => prefers_dark b
    end
  else false.

(** [classList.contains(token)] *)
Definition contains (token : string) (classList : list string) : bool :=
  existsb (String.eqb token) classList.

(** The chart component with its [isDark] cell beside the polling cells;
    [observing] holds until the observer is disconnected. *)
Record component : Type := {
  poller : Chart.instance;
  isDark : bool;
  observing : bool
}.

(** An event of the polling life cycle, or a change of the class attribute
    of the body, with the class list the callback then finds. *)
Inductive event : Type :=
| Poll (e : Chart.event)
| BodyClassChanged (classList : list string).

Definition mount (b : browser) : component :=
  {| poller := Chart.mount; isDark := getInitialDark b; observing := true |}.

(** Unmounting runs the cleanup of both effects. *)
Definition step (c : component) (e : event) : option component :=
  match e with
  | Poll e' =>
      match Chart.step (poller c) e' with
      | Some p =>
          Some {| poller := p; isDark := isDark c;
                  observing := match e' with
                               | Poller.Unmount => false
                               | _ => observing c
                               end |}
      | None => None
      end
  | BodyClassChanged classList =>
      if observing c
      then Some {| poller := poller c; isDark := contains "dark" classList;
                   observing := true |}
      else None
  end.

Fixpoint run (c : component) (es : list event) : option component :=
  match es with
  | [] => Some c
  | e :: es' =>
      match step c e with
      | Some c' => run c' es'
      | None => None
      end
  end.

(** The polling events of a run, in order. *)
Definition polls (es : list event) : list Chart.event :=
  flat_map (fun e => match e with Poll e' => [e'] | BodyClassChanged _ => [] end) es.

Definition is_class_change (e : event) : bool :=
  match e with BodyClassChanged _ => true | Poll _ => false end.

(** A browser with a stored dark theme, and a run in which the body is
    switched to light while the first fetch is in flight. *)
Definition sample_browser : browser :=
  {| has_storage := true; stored_theme := Some "dark"; prefers_dark := false |}.

Definition sample_run : list event :=
  [BodyClassChanged ["app"; "light"];
   Poll (Poller.Settled (Response 200 (Json
     {| Chart.lastTimestamps := Some [JStr "2024-01-15T10:30:00Z"];
        Chart.lastTemperatures := Some [Chart.SNum (Num.of_Z 21)];
        Chart.result_count := JNum (Num.of_Z 1) |})))].

End Theme.

(** ** Notions used to state what runs do *)

(** The outcomes of the fetches that settle during a run, in order. *)
Definition outcomes {payload : Type} (es : list (@Poller.event payload))
  : list (outcome payload) :=
  flat_map (fun e => match e with Poller.Settled o => [o] | _ => [] end) es.

Definition is_tick {payload : Type} (e : @Poller.event payload) : bool :=
  match e with Poller.Tick => true | _ => false end.
Definition is_retry {payload : Type} (e : @Poller.event payload) : bool :=
  match e with Poller.Retry => true | _ => false end.
Definition is_unmount {payload : Type} (e : @Poller.event payload) : bool :=
  match e with Poller.Unmount => true | _ => false end.

(** How many members satisfy [f]. *)
Definition how_many {A : Type} (f : A -> bool) (l : list A) : nat :=
  List.length (filter f l).

(** The function a logged call went to. *)
Definition display_call (e : Display.effect) : string :=
  match e with
  | Display.ConsoleError _ _ => "console.error"
  | Display.SetData _ => "setData"
  | Display.SetLoading _ => "setLoading"
  end.

Definition chart_call (e : Chart.effect) : string :=
  match e with
  | Chart.ConsoleError _ _ => "console.error"
  | Chart.SetTemperatureData _ => "setTemperatureData"
  | Chart.SetError _ => "setError"
  | Chart.SetLoading _ => "setLoading"
  end.

(** A state setter, as opposed to the console. *)
Definition is_setter (name : string) : bool := negb (name =? "console.error")%string.

(** The functions the continuation of [fetchTemperature] calls for an
    outcome, in order: the [catch] block on a failure, the end of the [try]
    block otherwise, then the [finally] block. *)
Definition display_calls_of (o : outcome Display.reading) : list string :=
  if failed o then ["console.error"; "setData"; "setLoading"]
  else ["setData"; "setLoading"].

(** The same for [fetchTemperatureHistory]. *)
Definition chart_calls_of (o : outcome Chart.payload) : list string :=
  if failed o then ["console.error"; "setError"; "setLoading"]
  else ["setTemperatureData"; "setError"; "setLoading"].

(** A logged call reduced to whether the component was mounted and which
    function was called. *)
Definition where_to {effect : Type} (call : effect -> string)
    (c : bool * effect) : bool * string :=
  (fst c, call (snd c)).

(** Every call of a state setter, along every run from mount, is made
    while the component is mounted. *)
Definition setters_guarded {cells effect payload : Type}
    (settle : outcome payload -> cells -> cells * list effect)
    (retry_offered : cells -> bool) (initial : cells)
    (call : effect -> string) : Prop :=
  forall es i,
    Poller.run settle retry_offered (Poller.mount initial) es = Some i ->
    Forall (fun c => is_setter (call (snd c)) = true -> fst c = true)
           (Poller.calls i).

(** Whenever the chart view is rendered for a non-empty window, the
    statistics block is there and has a figure for current. *)
Definition every_window_renders_a_current_figure : Prop :=
  forall (h : host) (s : Chart.state) (x : Chart.sample) (xs : list Chart.sample),
    Chart.loading s = false ->
    truthy (Chart.error s) = false ->
    Chart.temperatures (Chart.temperatureData s) = x :: xs ->
    exists c figures figure,
      Chart.TemperatureChart h s = Chart.ChartView c /\
      Chart.block c = Some figures /\
      Chart.current figures = Some figure.

Definition all_failed {P : Type} (os : list (outcome P)) : Prop :=
  Forall (fun o => failed o = true) os.

(** Neither NaN nor an infinity. *)
Definition finite (x : number) : bool :=
  match x with
  | S754_zero _ | S754_finite _ _ _ => true
  | S754_infinity _ | S754_nan => false
  end.

(** The window [fetchTemperatureHistory] stores for a result. *)
Definition fetched (result : Chart.payload) : Chart.window :=
  {| Chart.timestamps := Chart.or_empty (Chart.lastTimestamps result);
     Chart.temperatures := Chart.or_empty (Chart.lastTemperatures result);
     Chart.count := Chart.or_zero (Chart.result_count result) |}.

(** The chart [TemperatureChart] draws for a window. *)
Definition charted (h : host) (w : Chart.window) : Chart.chart :=
  {| Chart.reported := Chart.count w;
     Chart.labels := map (Chart.formatTimestamp h) (Chart.timestamps w);
     Chart.dataset := Chart.temperatures w;
     Chart.block := Chart.statistics (Chart.temperatures w) |}.

Definition is_digit (c : ascii) : bool :=
  let n := nat_of_ascii c in (48 <=? n)%nat && (n <=? 57)%nat.

Definition two_digits (s : string) : bool :=
  match list_ascii_of_string s with
  | [a; b] => is_digit a && is_digit b
  | _ => false
  end.

(** Two digits, a colon, two digits. *)
Definition is_clock (s : string) : bool :=
  match list_ascii_of_string s with
  | [a; b; c; d; e] =>
      is_digit a && is_digit b && (c =? ":")%char && is_digit d && is_digit e
  | _ => false
  end.

(** * Properties *)

(** ** The order on Numbers *)

Section NumberOrder.

Lemma compare_cont_is_compare (p q : positive) :
  Pos.compare_cont Eq p q = Pos.compare p q.
Proof. reflexivity. Qed.

Ltac order_cases :=
  repeat match goal with
    | |- context [Z.compare ?a ?b] =>
        destruct (Z.compare_spec a b)
    | |- context [Pos.compare ?a ?b] =>
        destruct (Pos.compare_spec a b)
    | H : context [Z.compare ?a ?b] |- _ =>
        destruct (Z.compare_spec a b)
    | H : context [Pos.compare ?a ?b] |- _ =>
        destruct (Pos.compare_spec a b)
    end.

Ltac crush_order :=
  unfold leb, Num.ltb, SFleb, SFltb, SFcompare in *;
  rewrite ?compare_cont_is_compare in *;
  repeat match goal with
    | s : bool |- _ => destruct s
    end;
  simpl in *; try congruence;
  order_cases; simpl in *; subst; try congruence; try lia.

Lemma leb_refl (x : number) : Num.is_nan x = false -> leb x x = true.
Proof. destruct x; intros H; crush_order. Qed.

Lemma leb_trans (x y z : number) :
  leb x y = true -> leb y z = true -> leb x z = true.
Proof. destruct x, y, z; intros H1 H2; crush_order. Qed.

Lemma ltb_leb (x y : number) : Num.ltb x y = true -> leb x y = true.
Proof. destruct x, y; intros H; crush_order. Qed.

Lemma not_ltb_leb (x y : number) :
  Num.is_nan x = false -> Num.is_nan y = false ->
  Num.ltb x y = false -> leb y x = true.
Proof. destruct x, y; intros Hx Hy H; crush_order. Qed.

End NumberOrder.

(** ** [Math.max] and [Math.min] pick the greatest and the least argument *)

Section Extremes.

Lemma max_from_spec (ns : list number) :
  no_nan ns -> forall highest,
  Num.is_nan highest = false ->
  let r := Chart.max_from highest ns in
  (r = highest \/ In r ns) /\ leb highest r = true /\
  (forall y, In y ns -> leb y r = true).
Proof.
  induction 1 as [|n ns Hn Hns IH]; intros highest Hh; simpl.
  - repeat split; auto using leb_refl; intros y [].
  - rewrite Hn.
    destruct (Chart.is_pos_zero n && Chart.is_neg_zero highest) eqn:Hz;
      [|destruct (Num.ltb highest n) eqn:Hlt].
    + destruct (IH n Hn) as (Hin & Hle & Hall).
      assert (Hhn : leb highest n = true).
      { apply andb_prop in Hz as [Hp Hq].
        destruct n as [[]| | |]; try discriminate.
        destruct highest as [[]| | |]; try discriminate. reflexivity. }
      repeat split.
      * right. destruct Hin as [->|Hin]; [now left | now right].
      * eapply leb_trans; eassumption.
      * intros y [<-|Hy]; auto.
    + destruct (IH n Hn) as (Hin & Hle & Hall).
      repeat split.
      * right. destruct Hin as [->|Hin]; [now left | now right].
      * eapply leb_trans; [apply ltb_leb|]; eassumption.
      * intros y [<-|Hy]; auto.
    + destruct (IH highest Hh) as (Hin & Hle & Hall).
      repeat split; auto.
      * destruct Hin as [->|Hin]; [now left | right; now right].
      * intros y [<-|Hy]; auto.
        eapply leb_trans; [apply not_ltb_leb|]; eassumption.
Qed.

Lemma min_from_spec (ns : list number) :
  no_nan ns -> forall lowest,
  Num.is_nan lowest = false ->
  let r := Chart.min_from lowest ns in
  (r = lowest \/ In r ns) /\ leb r lowest = true /\
  (forall y, In y ns -> leb r y = true).
Proof.
  induction 1 as [|n ns Hn Hns IH]; intros lowest Hl; simpl.
  - repeat split; auto using leb_refl; intros y [].
  - rewrite Hn.
    destruct (Chart.is_neg_zero n && Chart.is_pos_zero lowest) eqn:Hz;
      [|destruct (Num.ltb n lowest) eqn:Hlt].
    + destruct (IH n Hn) as (Hin & Hle & Hall).
      assert (Hnl : leb n lowest = true).
      { apply andb_prop in Hz as [Hp Hq].
        destruct n as [[]| | |]; try discriminate.
        destruct lowest as [[]| | |]; try discriminate. reflexivity. }
      repeat split.
      * right. destruct Hin as [->|Hin]; [now left | now right].
      * eapply leb_trans; eassumption.
      * intros y [<-|Hy]; auto.
    + destruct (IH n Hn) as (Hin & Hle & Hall).
      repeat split.
      * right. destruct Hin as [->|Hin]; [now left | now right].
      * eapply leb_trans; [|apply ltb_leb]; eassumption.
      * intros y [<-|Hy]; auto.
    + destruct (IH lowest Hl) as (Hin & Hle & Hall).
      repeat split; auto.
      * destruct Hin as [->|Hin]; [now left | right; now right].
      * intros y [<-|Hy]; auto.
        eapply leb_trans; [|apply not_ltb_leb]; eassumption.
Qed.

Lemma below_neg_Infinity (y : number) :
  leb y Num.neg_Infinity = true -> y = Num.neg_Infinity.
Proof. destruct y as [| [] | |]; simpl; intros H; try discriminate; reflexivity. Qed.

Lemma above_Infinity (y : number) :
  leb Num.Infinity y = true -> y = Num.Infinity.
Proof. destruct y as [| [] | |]; simpl; intros H; try discriminate; reflexivity. Qed.

(** On a non-empty list without NaN, the result of the [Math.max] loop
    is a member that every member is below. *)
Lemma max_is_greatest (n : number) (ns : list number) :
  no_nan (n :: ns) ->
  let r := Chart.max_from Num.neg_Infinity (n :: ns) in
  In r (n :: ns) /\ forall y, In y (n :: ns) -> leb y r = true.
Proof.
  intros H r.
  destruct (max_from_spec (n :: ns) H Num.neg_Infinity eq_refl)
    as ([Hr|Hr] & _ & Hall); fold r in Hr, Hall; split; auto.
  left. rewrite Hr. apply below_neg_Infinity.
  rewrite <- Hr. apply Hall. now left.
Qed.

Lemma min_is_least (n : number) (ns : list number) :
  no_nan (n :: ns) ->
  let r := Chart.min_from Num.Infinity (n :: ns) in
  In r (n :: ns) /\ forall y, In y (n :: ns) -> leb r y = true.
Proof.
  intros H r.
  destruct (min_from_spec (n :: ns) H Num.Infinity eq_refl)
    as ([Hr|Hr] & _ & Hall); fold r in Hr, Hall; split; auto.
  left. rewrite Hr. apply above_Infinity.
  rewrite <- Hr. apply Hall. now left.
Qed.

End Extremes.

(** ** The statistics block *)

Section Statistics.

Import Chart.

Lemma coerced_numbers (l : list number) : map ToNumber (map SNum l) = l.
Proof. rewrite map_map. apply map_id. Qed.

Lemma reduce_sum_numbers (l : list number) :
  reduce_sum (map SNum l) = fold_left Num.add l Num.zero.
Proof.
  unfold reduce_sum. generalize Num.zero.
  induction l as [|x l IH]; intros acc; simpl; auto.
Qed.

Lemma last_default {A : Type} (l : list A) (a d d' : A) :
  last (a :: l) d = last (a :: l) d'.
Proof.
  revert a. induction l as [|b l IH]; intros a; [reflexivity|].
  exact (IH b).
Qed.

Lemma nth_error_last {A : Type} (x : A) (xs : list A) :
  nth_error (x :: xs) (List.length xs) = Some (last (x :: xs) x).
Proof.
  revert x. induction xs as [|y ys IH]; intros x; [reflexivity|].
  change (nth_error (y :: ys) (List.length ys) = Some (last (y :: ys) x)).
  rewrite IH. f_equal. apply last_default.
Qed.

Lemma last_index (x : sample) (xs : list sample) :
  at_index (x :: xs) (length (x :: xs) - 1) = Some (last (x :: xs) x).
Proof.
  unfold at_index, length.
  replace (Z.of_nat (List.length (x :: xs)) - 1) with (Z.of_nat (List.length xs))
    by (simpl List.length; lia).
  destruct (Z.ltb_spec (Z.of_nat (List.length xs)) 0); [lia|].
  rewrite Nat2Z.id. apply nth_error_last.
Qed.

Lemma last_map {A B : Type} (f : A -> B) (l : list A) (d : A) :
  last (map f l) (f d) = f (last l d).
Proof.
  induction l as [|x l IH]; [reflexivity|].
  destruct l; [reflexivity|]. exact IH.
Qed.

End Statistics.

(** What [statistics] computes for a window of numbers: nothing for the
    empty one; otherwise the value at the last index, the values summed up
    from 0 and divided by the length, and the greatest member minus the
    least member, each to one decimal. *)
Lemma statistics_of_window :
  (forall l : list number,
      no_nan l ->
      match l with
      | [] => Chart.statistics (map Chart.SNum l) = None
      | x :: _ =>
          exists hi lo : number,
            In hi l /\ In lo l /\
            (forall y, In y l -> leb y hi = true /\ leb lo y = true) /\
            Chart.statistics (map Chart.SNum l) =
              Some {| Chart.current := Some (toFixed1 (last l x));
                      Chart.average :=
                        toFixed1 (Num.div (fold_left Num.add l Num.zero)
                                          (Num.of_Z (Z.of_nat (List.length l))));
                      Chart.range := toFixed1 (Num.sub hi lo) |}
      end) /\
  Chart.statistics (map Chart.SNum [Num.of_Z 18; Num.of_Z 20; Num.of_Z 22]) =
    Some {| Chart.current := Some (Text "22.0");
            Chart.average := Text "20.0";
            Chart.range := Text "4.0" |} /\
  Chart.statistics [Chart.SNum (Num.of_dyadic 39 (-1))] =
    Some {| Chart.current := Some (Text "19.5");
            Chart.average := Text "19.5";
            Chart.range := Text "0.0" |}.
Proof.
  split; [|split; vm_compute; reflexivity].
  intros [|x xs] Hl; [reflexivity|].
  destruct (max_is_greatest x xs Hl) as [Hhi Hmax].
  destruct (min_is_least x xs Hl) as [Hlo Hmin].
  exists (Chart.max_from Num.neg_Infinity (x :: xs)),
         (Chart.min_from Num.Infinity (x :: xs)).
  repeat split; auto.
  assert (Hidx : Chart.at_index (map Chart.SNum (x :: xs))
                   (Chart.length (map Chart.SNum (x :: xs)) - 1)
                 = Some (Chart.SNum (last (x :: xs) x))).
  { rewrite <- (last_map Chart.SNum (x :: xs) x). apply last_index. }
  assert (Hlen : Chart.length (map Chart.SNum (x :: xs))
                 = Z.of_nat (List.length (x :: xs)))
    by (unfold Chart.length; now rewrite length_map).
  unfold Chart.statistics, Chart.Math_max, Chart.Math_min.
  rewrite Hidx, coerced_numbers, reduce_sum_numbers, Hlen.
  destruct (Z.ltb_spec 0 (Z.of_nat (List.length (x :: xs)))) as [_|Hneg];
    [reflexivity | simpl List.length in Hneg; lia].
Qed.

(** ** The life cycle *)

Section PollerFacts.

Context {cells effect payload : Type}.
Variable settle : outcome payload -> cells -> cells * list effect.
Variable retry_offered : cells -> bool.

Local Abbreviation instance := (@Poller.instance cells effect).
Local Abbreviation event := (@Poller.event payload).
Local Abbreviation step := (Poller.step settle retry_offered).
Local Abbreviation run := (Poller.run settle retry_offered).
Local Abbreviation torn_down := (@Poller.torn_down cells effect).

Lemma run_app (es es' : list event) (i : instance) :
  run i (es ++ es') =
  match run i es with
  | Some j => run j es'
  | None => None
  end.
Proof.
  revert i. induction es as [|e es IH]; intros i; simpl; [reflexivity|].
  destruct (step i e); [apply IH | reflexivity].
Qed.

(** Only a settling fetch changes the cells. *)
Lemma step_hooks (i i' : instance) (e : event) :
  step i e = Some i' ->
  Poller.hooks i' =
    match e with
    | Poller.Settled o => fst (settle o (Poller.hooks i))
    | _ => Poller.hooks i
    end.
Proof.
  destruct e; simpl.
  - destruct (Poller.interval i); intros [= <-]; reflexivity.
  - destruct (Poller.pending i); [discriminate|].
    destruct (settle o (Poller.hooks i)); intros [= <-]; reflexivity.
  - destruct (_ && _); intros [= <-]; reflexivity.
  - destruct (Poller.mounted i); intros [= <-]; reflexivity.
Qed.

Section Loading.

Variable loading : cells -> bool.
Hypothesis settle_clears : forall o c, loading (fst (settle o c)) = false.

Lemma run_loading (es : list event) (i i' : instance) :
  run i es = Some i' ->
  loading (Poller.hooks i') =
    if existsb Poller.is_settled es then false else loading (Poller.hooks i).
Proof.
  revert i. induction es as [|e es IH]; intros i; simpl.
  - intros [= <-]. reflexivity.
  - destruct (step i e) as [j|] eqn:Hstep; [|discriminate].
    intros Hrun. rewrite (IH _ Hrun), (step_hooks _ _ _ Hstep).
    destruct e; simpl; try reflexivity.
    rewrite settle_clears. now destruct (existsb _ es).
Qed.

End Loading.

Lemma unmount_tears_down (es : list event) (i j : instance) :
  run i (es ++ [Poller.Unmount]) = Some j -> torn_down j.
Proof.
  rewrite run_app. destruct (run i es) as [k|]; [|discriminate].
  simpl. destruct (Poller.mounted k); [|discriminate].
  intros [= <-]. split; reflexivity.
Qed.

(** After teardown the only events left are the settlements of fetches
    already in flight, and each runs the continuation as ever. *)
Lemma run_torn_down (es : list event) (i i' : instance) :
  torn_down i ->
  run i es = Some i' ->
  exists os : list (outcome payload),
    es = map Poller.Settled os /\
    Poller.pending i = (List.length os + Poller.pending i')%nat /\
    torn_down i' /\
    Poller.hooks i' = fst (Poller.settle_each settle os (Poller.hooks i)) /\
    Poller.calls i' =
      (Poller.calls i ++
       map (pair false) (snd (Poller.settle_each settle os (Poller.hooks i))))%list.
Proof.
  revert i. induction es as [|e es IH]; intros i [Hm Hi]; simpl.
  - intros [= <-]. exists []. simpl. rewrite app_nil_r. repeat split; auto.
  - destruct e; simpl.
    + rewrite Hi. discriminate.
    + destruct (Poller.pending i) as [|n] eqn:Hp; [discriminate|].
      destruct (settle o (Poller.hooks i)) as [c made] eqn:Hs.
      intros Hrun.
      eapply IH in Hrun; [|split; simpl; assumption].
      destruct Hrun as (os & -> & Hpen & Htd & Hh & Hc).
      simpl in Hpen, Hh, Hc.
      exists (o :: os). simpl. rewrite Hs.
      destruct (Poller.settle_each settle os c) as [c2 made2].
      simpl in *. rewrite Hm in Hc. rewrite map_app, app_assoc.
      repeat split; auto; try apply Htd; now rewrite Hpen.
    + rewrite Hm. discriminate.
    + rewrite Hm. discriminate.
Qed.

End PollerFacts.

(** C5.  For each poller, along every run from mount, [loading] is true as
    long as no fetch has settled and false from the first settlement on,
    whatever the outcomes of that and of all later fetches. *)
Theorem loading_until_first_settlement :
  (forall (es : list Display.event) (i : Display.instance),
      Display.run Display.mount es = Some i ->
      Display.loading (Poller.hooks i) = negb (existsb Poller.is_settled es)) /\
  (forall (es : list Chart.event) (i : Chart.instance),
      Chart.run Chart.mount es = Some i ->
      Chart.loading (Poller.hooks i) = negb (existsb Poller.is_settled es)).
Proof.
  split; intros es i Hrun.
  - assert (Hclears : forall o c,
               Display.loading (fst (Display.fetchTemperature o c)) = false)
      by (intros o c; unfold Display.fetchTemperature; now destruct (awaited o)).
    rewrite (run_loading _ _ Display.loading Hclears es _ _ Hrun).
    generalize (existsb Poller.is_settled es); intros []; reflexivity.
  - assert (Hclears : forall o c,
               Chart.loading (fst (Chart.fetchTemperatureHistory o c)) = false)
      by (intros o c; unfold Chart.fetchTemperatureHistory; now destruct (awaited o)).
    rewrite (run_loading _ _ Chart.loading Hclears es _ _ Hrun).
    generalize (existsb Poller.is_settled es); intros []; reflexivity.
Qed.

(** The sample runs of both pollers end with [loading] false. *)
Lemma loading_until_first_settlement_witness :
  (exists i,
      Display.run Display.mount Display.sample_run = Some i /\
      Display.loading (Poller.hooks i) = false) /\
  (exists i,
      Chart.run Chart.mount Chart.sample_run = Some i /\
      Chart.loading (Poller.hooks i) = false).
Proof.
  split; eexists; (split; [reflexivity|]).
  - exact (proj1 loading_until_first_settlement Display.sample_run _ eq_refl).
  - exact (proj2 loading_until_first_settlement Chart.sample_run _ eq_refl).
Defined.

Lemma display_calls_made (os : list (outcome Display.reading)) (s : Display.state) :
  map display_call (snd (Poller.settle_each Display.fetchTemperature os s))
  = flat_map display_calls_of os.
Proof.
  revert s. induction os as [|o os IH]; intros s; [reflexivity|].
  cbn [Poller.settle_each flat_map].
  assert (Hone : map display_call (snd (Display.fetchTemperature o s))
                 = display_calls_of o).
  { unfold Display.fetchTemperature, display_calls_of, failed.
    now destruct (awaited o). }
  destruct (Display.fetchTemperature o s) as [s1 made1].
  specialize (IH s1).
  destruct (Poller.settle_each Display.fetchTemperature os s1) as [s2 made2].
  cbn [snd] in *. now rewrite map_app, Hone, IH.
Qed.

Lemma chart_calls_made (os : list (outcome Chart.payload)) (s : Chart.state) :
  map chart_call (snd (Poller.settle_each Chart.fetchTemperatureHistory os s))
  = flat_map chart_calls_of os.
Proof.
  revert s. induction os as [|o os IH]; intros s; [reflexivity|].
  cbn [Poller.settle_each flat_map].
  assert (Hone : map chart_call (snd (Chart.fetchTemperatureHistory o s))
                 = chart_calls_of o).
  { unfold Chart.fetchTemperatureHistory, chart_calls_of, failed.
    now destruct (awaited o). }
  destruct (Chart.fetchTemperatureHistory o s) as [s1 made1].
  specialize (IH s1).
  destruct (Poller.settle_each Chart.fetchTemperatureHistory os s1) as [s2 made2].
  cbn [snd] in *. now rewrite map_app, Hone, IH.
Qed.

(** C6, as claimed, fails: the settlement of a fetch in flight at teardown
    is not guarded.  For both pollers, unmounting right after mount and
    letting the first fetch succeed ends with state setters called while
    the component is unmounted. *)
Lemma setters_are_called_after_teardown :
  ~ setters_guarded Display.fetchTemperature (fun _ => false)
      Display.initial display_call /\
  ~ setters_guarded Chart.fetchTemperatureHistory Chart.retry_offered
      Chart.initial chart_call.
Proof.
  split; intros Hguarded.
  - specialize (Hguarded
      [Poller.Unmount;
       Poller.Settled (Response 200 (Json
         {| Display.temperature := JNum (Num.of_Z 21);
            Display.time := JStr "2024-01-15T10:30:00Z";
            Display.trend := JStr "up" |}))] _ eq_refl).
    apply Forall_inv in Hguarded. discriminate (Hguarded eq_refl).
  - specialize (Hguarded
      [Poller.Unmount;
       Poller.Settled (Response 200 (Json
         {| Chart.lastTimestamps := Some [JStr "2024-01-15T10:30:00Z"];
            Chart.lastTemperatures := Some [Chart.SNum (Num.of_Z 21)];
            Chart.result_count := JNum (Num.of_Z 1) |}))] _ eq_refl).
    apply Forall_inv in Hguarded. discriminate (Hguarded eq_refl).
Qed.

(** C6, amended.  For each poller, once the component is unmounted the
    timer is cleared and stays cleared, and neither the timer nor the retry
    button starts a fetch any more: the only events left are the
    settlements of the fetches that were in flight at teardown, at most as
    many as were pending.  None of them is aborted or guarded: each still
    runs the continuation of the fetch routine, which calls the console on
    a failure and the state setters on every outcome, all while the
    component is unmounted. *)
Theorem teardown_cancels_the_schedule_only :
  (forall (es es' : list Display.event) (i i' : Display.instance),
      Display.run Display.mount (es ++ [Poller.Unmount]) = Some i ->
      Display.run i es' = Some i' ->
      exists os,
        es' = map Poller.Settled os /\
        Poller.pending i = (List.length os + Poller.pending i')%nat /\
        Poller.mounted i' = false /\ Poller.interval i' = None /\
        map (where_to display_call) (Poller.calls i') =
          (map (where_to display_call) (Poller.calls i) ++
           map (pair false) (flat_map display_calls_of os))%list) /\
  (forall (es es' : list Chart.event) (i i' : Chart.instance),
      Chart.run Chart.mount (es ++ [Poller.Unmount]) = Some i ->
      Chart.run i es' = Some i' ->
      exists os,
        es' = map Poller.Settled os /\
        Poller.pending i = (List.length os + Poller.pending i')%nat /\
        Poller.mounted i' = false /\ Poller.interval i' = None /\
        map (where_to chart_call) (Poller.calls i') =
          (map (where_to chart_call) (Poller.calls i) ++
           map (pair false) (flat_map chart_calls_of os))%list).
Proof.
  split; intros es es' i i' Hdown Hrun.
  - apply unmount_tears_down in Hdown.
    destruct (run_torn_down _ _ es' i i' Hdown Hrun)
      as (os & Hes & Hpen & [Hm Hi] & _ & Hc).
    exists os. repeat split; try assumption.
    rewrite Hc, map_app, <- display_calls_made with (s := Poller.hooks i).
    f_equal. now rewrite !map_map.
  - apply unmount_tears_down in Hdown.
    destruct (run_torn_down _ _ es' i i' Hdown Hrun)
      as (os & Hes & Hpen & [Hm Hi] & _ & Hc).
    exists os. repeat split; try assumption.
    rewrite Hc, map_app, <- chart_calls_made with (s := Poller.hooks i).
    f_equal. now rewrite !map_map.
Qed.

(** Both pollers unmounted after one tick, with two fetches in flight of
    which one then fails: the three calls of the [catch] and [finally]
    blocks are made unmounted, and one fetch stays in flight. *)
Lemma teardown_cancels_the_schedule_only_witness :
  (exists i i',
      Display.run Display.mount ([Poller.Tick] ++ [Poller.Unmount]) = Some i /\
      Display.run i [Poller.Settled (NetworkError "Failed to fetch")] = Some i' /\
      Poller.pending i' = 1%nat /\
      map (where_to display_call) (Poller.calls i') =
        [(false, "console.error"); (false, "setData"); (false, "setLoading")]) /\
  (exists i i',
      Chart.run Chart.mount ([Poller.Tick] ++ [Poller.Unmount]) = Some i /\
      Chart.run i [Poller.Settled (NetworkError "Failed to fetch")] = Some i' /\
      Poller.pending i' = 1%nat /\
      map (where_to chart_call) (Poller.calls i') =
        [(false, "console.error"); (false, "setError"); (false, "setLoading")]).
Proof.
  split.
  - destruct (proj1 teardown_cancels_the_schedule_only
                [Poller.Tick] [Poller.Settled (NetworkError "Failed to fetch")]
                _ _ eq_refl eq_refl) as (os & Hes & Hpen & _ & _ & Hcalls).
    destruct os as [|o [|o' os]]; try discriminate Hes.
    injection Hes as <-.
    eexists _, _.
    split; [reflexivity|]. split; [reflexivity|]. split; [reflexivity|].
    exact Hcalls.
  - destruct (proj2 teardown_cancels_the_schedule_only
                [Poller.Tick] [Poller.Settled (NetworkError "Failed to fetch")]
                _ _ eq_refl eq_refl) as (os & Hes & Hpen & _ & _ & Hcalls).
    destruct os as [|o [|o' os]]; try discriminate Hes.
    injection Hes as <-.
    eexists _, _.
    split; [reflexivity|]. split; [reflexivity|]. split; [reflexivity|].
    exact Hcalls.
Defined.

(** ** The latest-reading poller *)

Lemma spread_same (r : Display.reading) : Display.spread r = r.
Proof. now destruct r. Qed.

(** C2.  A rejected fetch and a response with a non-success status both
    fail; and whenever a fetch of the latest reading fails, the stored
    temperature, time and trend are what they were, the only calls are one
    [console.error] and the setters handing back the same reading and
    clearing [loading], and the component renders the card of that same
    reading: there is no error view. *)
Theorem failed_latest_fetch_keeps_the_reading :
  (forall message : string,
      failed (@NetworkError Display.reading message) = true) /\
  (forall (status : Z) (content : body Display.reading),
      ok status = false -> failed (Response status content) = true) /\
  (forall (h : host) (o : outcome Display.reading) (s : Display.state),
      failed o = true ->
      Display.data (fst (Display.fetchTemperature o s)) = Display.data s /\
      (exists err,
          snd (Display.fetchTemperature o s) =
            [Display.ConsoleError "Failed to fetch temperature:" err;
             Display.SetData (Display.data s);
             Display.SetLoading false]) /\
      Display.TemperatureDisplay h (fst (Display.fetchTemperature o s)) =
        Display.Card (Display.TemperatureCard h (Display.data s))).
Proof.
  split; [reflexivity|split].
  - intros status content Hok. unfold failed. simpl. now rewrite Hok.
  - intros h o s. unfold failed, Display.fetchTemperature.
    destruct (awaited o) as [result|err]; [discriminate|intros _].
    simpl. rewrite spread_same.
    split; [reflexivity|split; [exists err|]; reflexivity].
Qed.

(** A 503 after a successful fetch. *)
Lemma failed_latest_fetch_keeps_the_reading_witness :
  let shown_before := {| Display.temperature := JNum (Num.of_Z 21);
                         Display.time := JStr "2024-01-15T10:30:00Z";
                         Display.trend := JStr "up" |} in
  let s := {| Display.data := shown_before; Display.loading := false |} in
  let o := Response 503 (Malformed "Unexpected token") in
  ok 503 = false /\
  Display.data (fst (Display.fetchTemperature o s)) = shown_before /\
  Display.TemperatureDisplay UtcHost.utc (fst (Display.fetchTemperature o s)) =
    Display.TemperatureDisplay UtcHost.utc s.
Proof.
  intros shown_before s o.
  assert (Hok : ok 503 = false) by reflexivity.
  pose proof (proj1 (proj2 failed_latest_fetch_keeps_the_reading)
                503 (Malformed "Unexpected token") Hok) as Hfailed.
  destruct (proj2 (proj2 failed_latest_fetch_keeps_the_reading)
              UtcHost.utc o s Hfailed) as (Hdata & _ & Hview).
  repeat split; assumption.
Defined.

Lemma is_string_true (lit : string) (v : jsval) :
  is_string lit v = true <-> v = JStr lit.
Proof.
  destruct v; simpl; try (split; [discriminate|intros [=]]).
  rewrite String.eqb_eq. split; [now intros -> | now intros [= ->]].
Qed.

(** C9.  Whatever the temperature and the time: with trend ["stable"] the
    card has no indicator; with ["up"] it has the up arrow, captioned
    Rising, in red; with ["down"] it has the down arrow, captioned
    Falling, in blue.  The indicator is an icon, a colour and a caption, and
    it is the same for any two readings with the same trend: it shows no
    figure derived from the temperature. *)
Theorem trend_indicator (h : host) :
  (forall temperature time,
      Display.direction (Display.TemperatureCard h
        {| Display.temperature := temperature; Display.time := time;
           Display.trend := JStr "stable" |}) = None) /\
  (forall temperature time,
      Display.direction (Display.TemperatureCard h
        {| Display.temperature := temperature; Display.time := time;
           Display.trend := JStr "up" |}) =
      Some {| Display.arrow := Display.ArrowUp;
              Display.colour := "text-red-500";
              Display.caption := "Rising" |}) /\
  (forall temperature time,
      Display.direction (Display.TemperatureCard h
        {| Display.temperature := temperature; Display.time := time;
           Display.trend := JStr "down" |}) =
      Some {| Display.arrow := Display.ArrowDown;
              Display.colour := "text-blue-500";
              Display.caption := "Falling" |}) /\
  (forall temperature time temperature' time' trend,
      Display.direction (Display.TemperatureCard h
        {| Display.temperature := temperature; Display.time := time;
           Display.trend := trend |}) =
      Display.direction (Display.TemperatureCard h
        {| Display.temperature := temperature'; Display.time := time';
           Display.trend := trend |})).
Proof. repeat split. Qed.

(** C10.  Every trend value that is neither the string ["up"] nor the
    string ["stable"], the expected ["down"] and any other value alike,
    renders the Falling indicator. *)
Theorem other_trends_render_falling (h : host) (r : Display.reading) :
  Display.trend r <> JStr "up" ->
  Display.trend r <> JStr "stable" ->
  Display.direction (Display.TemperatureCard h r) = Some Display.Falling.
Proof.
  intros Hup Hstable. unfold Display.TemperatureCard. simpl.
  destruct (is_string "stable" (Display.trend r)) eqn:Hs.
  - apply is_string_true in Hs. contradiction.
  - destruct (is_string "up" (Display.trend r)) eqn:Hu; [|reflexivity].
    apply is_string_true in Hu. contradiction.
Qed.

(** A trend outside the three expected values, and an absent one. *)
Lemma other_trends_render_falling_witness :
  Display.direction (Display.TemperatureCard UtcHost.utc
    {| Display.temperature := JNum (Num.of_Z 21); Display.time := JNull;
       Display.trend := JStr "sideways" |}) = Some Display.Falling /\
  Display.direction (Display.TemperatureCard UtcHost.utc
    {| Display.temperature := JNull; Display.time := JNull;
       Display.trend := JNull |}) = Some Display.Falling.
Proof.
  split; apply other_trends_render_falling; simpl; discriminate.
Defined.

(** ** The history poller *)

(** The window a successful fetch stores. *)
Lemma fetched_window (result : Chart.payload) (o : outcome Chart.payload)
      (s : Chart.state) :
  awaited o = Normal result ->
  fst (Chart.fetchTemperatureHistory o s) =
    {| Chart.temperatureData :=
         {| Chart.timestamps := Chart.or_empty (Chart.lastTimestamps result);
            Chart.temperatures := Chart.or_empty (Chart.lastTemperatures result);
            Chart.count := Chart.or_zero (Chart.result_count result) |};
       Chart.loading := false;
       Chart.error := JNull |}.
Proof. unfold Chart.fetchTemperatureHistory. now intros ->. Qed.

(** The message of a non-success status is never empty. *)
Lemma status_message_not_empty {P : Type} (status : Z) (content : body P)
      (message : string) :
  ok status = false ->
  awaited (Response status content) = Throw message ->
  message <> "".
Proof. simpl. intros ->. simpl. intros [= <-]. discriminate. Qed.

(** C3.  In a mounted history poller with a fetch pending, when that fetch
    fails with a message: the error cell holds the message, the stored
    window is untouched, and the render is the error view in place of the
    chart.  When then a fetch started by the Retry button or by the timer
    succeeds, the window is the one just fetched, the error cell is null
    again, and the render is the chart of the new window. *)
Theorem history_failure_then_recovery
    (h : host) (i : Chart.instance) (due : Z) (n : nat)
    (o1 o2 : outcome Chart.payload) (message : string) (result : Chart.payload) :
  Poller.mounted i = true ->
  Poller.interval i = Some due ->
  Poller.pending i = S n ->
  awaited o1 = Throw message ->
  message <> "" ->
  awaited o2 = Normal result ->
  let fresh := {| Chart.timestamps := Chart.or_empty (Chart.lastTimestamps result);
                  Chart.temperatures := Chart.or_empty (Chart.lastTemperatures result);
                  Chart.count := Chart.or_zero (Chart.result_count result) |} in
  exists i1,
    Chart.step i (Poller.Settled o1) = Some i1 /\
    Chart.error (Poller.hooks i1) = JStr message /\
    Chart.temperatureData (Poller.hooks i1) = Chart.temperatureData (Poller.hooks i) /\
    Chart.TemperatureChart h (Poller.hooks i1) = Chart.ErrorView (JStr message) /\
    forall again,
      again = Poller.Retry \/ again = Poller.Tick ->
      exists i2 i3,
        Chart.step i1 again = Some i2 /\
        Chart.step i2 (Poller.Settled o2) = Some i3 /\
        Poller.hooks i3 = {| Chart.temperatureData := fresh;
                             Chart.loading := false;
                             Chart.error := JNull |} /\
        Chart.TemperatureChart h (Poller.hooks i3) =
          Chart.ChartView
            {| Chart.reported := Chart.count fresh;
               Chart.labels := map (Chart.formatTimestamp h) (Chart.timestamps fresh);
               Chart.dataset := Chart.temperatures fresh;
               Chart.block := Chart.statistics (Chart.temperatures fresh) |}.
Proof.
  intros Hm Hi Hp H1 Hmsg H2 fresh.
  assert (Htruthy : truthy (JStr message) = true).
  { simpl. destruct (String.eqb_spec message ""); [contradiction|reflexivity]. }
  assert (Hview : forall w,
             Chart.TemperatureChart h
               {| Chart.temperatureData := w; Chart.loading := false;
                  Chart.error := JStr message |} = Chart.ErrorView (JStr message)).
  { intros w. unfold Chart.TemperatureChart.
    cbn [Chart.loading Chart.error]. now rewrite Htruthy. }
  assert (Hretry : forall w,
             Chart.retry_offered
               {| Chart.temperatureData := w; Chart.loading := false;
                  Chart.error := JStr message |} = true).
  { intros w. unfold Chart.retry_offered.
    cbn [Chart.loading Chart.error]. now rewrite Htruthy. }
  unfold Chart.step, Poller.step. rewrite Hp.
  unfold Chart.fetchTemperatureHistory at 1. rewrite H1.
  eexists. split; [reflexivity|].
  cbn [Poller.hooks Poller.mounted Poller.interval Poller.pending
       Chart.error Chart.temperatureData].
  rewrite Hview, Hretry, Hm, Hi.
  repeat split.
  intros again [-> | ->]; cbn [andb];
    unfold Chart.fetchTemperatureHistory; rewrite H2;
    eexists _, _; repeat split.
Qed.

(** A 500 on the first fetch of a freshly mounted chart, then a successful
    retry with one reading. *)
Lemma history_failure_then_recovery_witness :
  exists i1 i2 i3,
    Chart.step Chart.mount (Poller.Settled (Response 500 (Malformed "Unexpected token")))
      = Some i1 /\
    Chart.TemperatureChart UtcHost.utc (Poller.hooks i1)
      = Chart.ErrorView (JStr "HTTP error! status: 500") /\
    Chart.step i1 Poller.Retry = Some i2 /\
    Chart.step i2 (Poller.Settled (Response 200 (Json
      {| Chart.lastTimestamps := Some [JStr "2024-01-15T10:30:00Z"];
         Chart.lastTemperatures := Some [Chart.SNum (Num.of_Z 21)];
         Chart.result_count := JNum (Num.of_Z 1) |}))) = Some i3 /\
    Chart.TemperatureChart UtcHost.utc (Poller.hooks i3) =
      Chart.ChartView
        {| Chart.reported := JNum (Num.of_Z 1);
           Chart.labels := [JStr "10:30"];
           Chart.dataset := [Chart.SNum (Num.of_Z 21)];
           Chart.block := Some {| Chart.current := Some (Text "21.0");
                                  Chart.average := Text "21.0";
                                  Chart.range := Text "0.0" |} |}.
Proof.
  assert (Hmsg : "HTTP error! status: 500" <> "") by discriminate.
  destruct (history_failure_then_recovery UtcHost.utc Chart.mount
              Poller.period 0
              (Response 500 (Malformed "Unexpected token"))
              (Response 200 (Json
                 {| Chart.lastTimestamps := Some [JStr "2024-01-15T10:30:00Z"];
                    Chart.lastTemperatures := Some [Chart.SNum (Num.of_Z 21)];
                    Chart.result_count := JNum (Num.of_Z 1) |}))
              "HTTP error! status: 500" _
              eq_refl eq_refl eq_refl eq_refl Hmsg eq_refl)
    as (i1 & Hs1 & _ & _ & Hv1 & Hnext).
  destruct (Hnext Poller.Retry (or_introl eq_refl)) as (i2 & i3 & Hs2 & Hs3 & _ & Hv3).
  exists i1, i2, i3. repeat split; assumption.
Defined.

(** ** Absent values and unparseable timestamps *)

(** C4.  The card renders the placeholder for a null temperature, whatever
    the time and the trend.  The statistics block, however, lets a null
    element of the window into its aggregates: in [20, null] the optional
    call skips the null for the current figure, but the sum counts it as 0
    over a length of 2 and [Math.min] takes it as 0, so the block shows an
    average of 10.0 and a range of 20.0. *)
Theorem absent_value_enters_the_aggregates :
  (forall (h : host) (time trend : jsval),
      Display.shown (Display.TemperatureCard h
        {| Display.temperature := JNull; Display.time := time;
           Display.trend := trend |}) = JStr "--") /\
  Chart.statistics [Chart.SNum (Num.of_Z 20); Chart.SNull] =
    Some {| Chart.current := None;
            Chart.average := Text "10.0";
            Chart.range := Text "20.0" |} /\
  Chart.statistics [Chart.SNum (Num.of_Z 20)] =
    Some {| Chart.current := Some (Text "20.0");
            Chart.average := Text "20.0";
            Chart.range := Text "0.0" |}.
Proof. split; [reflexivity|split; vm_compute; reflexivity]. Qed.

(** Neither [new Date(...)] nor [toLocaleTimeString] throws: the [catch]
    of the two formatting helpers is never entered. *)
Lemma format_returns (h : host) (v : jsval) :
  exists s, Date.format h v = Normal s.
Proof. unfold Date.format, Date.construct, Date.toLocaleTimeString. eauto. Qed.

(** C7.  [formatTime] gives the placeholder for an absent timestamp (null,
    undefined or the empty string) and the local hour and minute for a
    string the browser parses; for a non-empty string the browser does not
    parse it gives ["Invalid Date"], not the placeholder. *)
Theorem formatTime_of_unparseable (h : host) (s : string) :
  s <> "" ->
  Date_parse h s = None ->
  Display.formatTime h (JStr s) = "Invalid Date" /\
  Display.formatTime h JNull = "--:--" /\
  Display.formatTime h JUndefined = "--:--" /\
  Display.formatTime h (JStr "") = "--:--".
Proof.
  intros Hs Hparse. repeat split.
  unfold Display.formatTime. simpl.
  destruct (String.eqb_spec s ""); [contradiction|]. simpl.
  now rewrite Hparse.
Qed.

(** The text ["not-a-date"] in a browser that parses the interchange
    format only. *)
Lemma formatTime_of_unparseable_witness :
  Display.formatTime UtcHost.utc (JStr "not-a-date") = "Invalid Date" /\
  Display.formatTime UtcHost.utc (JStr "2024-01-15T10:30:00Z") = "10:30".
Proof.
  split; [|reflexivity].
  assert (Hs : "not-a-date" <> "") by discriminate.
  exact (proj1 (formatTime_of_unparseable UtcHost.utc "not-a-date" Hs eq_refl)).
Defined.

(** C8.  On every truthy timestamp [formatTimestamp] gives what
    [formatTime] gives; on a string the browser does not parse that is
    ["Invalid Date"], not the raw timestamp. *)
Theorem formatTimestamp_of_unparseable (h : host) (s : string) :
  Date_parse h s = None ->
  Chart.formatTimestamp h (JStr s) = JStr "Invalid Date" /\
  forall v, truthy v = true ->
    Chart.formatTimestamp h v = JStr (Display.formatTime h v).
Proof.
  intros Hparse. split.
  - unfold Chart.formatTimestamp. simpl. now rewrite Hparse.
  - intros v Hv. unfold Chart.formatTimestamp, Display.formatTime.
    rewrite Hv. cbn [negb]. now destruct (format_returns h v) as [t ->].
Qed.

Lemma formatTimestamp_of_unparseable_witness :
  Chart.formatTimestamp UtcHost.utc (JStr "not-a-date") = JStr "Invalid Date" /\
  Chart.formatTimestamp UtcHost.utc (JStr "2024-01-15T10:30:00Z") = JStr "10:30".
Proof.
  split; [|reflexivity].
  exact (proj1 (formatTimestamp_of_unparseable UtcHost.utc "not-a-date" eq_refl)).
Defined.

(** * Further properties of the two components *)

(** ** Which fetches succeed *)

(** X1.  A fetch succeeds exactly when the response has a status from 200
    to 299 and a JSON body other than null; on any other status the body is
    not looked at and the error message names the status. *)
Theorem fetch_succeeds_exactly_on_2xx_json {P : Type} (o : outcome P) :
  (failed o = false <->
   exists status result,
     o = Response status (Json result) /\ 200 <= status <= 299) /\
  (forall status content,
      o = Response status content ->
      ~ 200 <= status <= 299 ->
      awaited o = Throw ("HTTP error! status: " ++ Num.digits status)).
Proof.
  unfold failed. split; [split|].
  - destruct o as [m|status content]; simpl; [discriminate|].
    unfold ok. destruct (Z.leb_spec 200 status), (Z.leb_spec status 299);
      simpl; try discriminate.
    destruct content; try discriminate.
    intros _. exists status, result. split; [reflexivity|lia].
  - intros (status & result & -> & Hlo & Hhi). simpl. unfold ok.
    apply Z.leb_le in Hlo, Hhi. now rewrite Hlo, Hhi.
  - intros status content -> Hout. simpl. unfold ok.
    destruct (Z.leb_spec 200 status), (Z.leb_spec status 299); simpl;
      try reflexivity.
    exfalso. apply Hout. lia.
Qed.

(** A 204 whose empty body is not JSON fails; a 304 fails with its status
    in the message. *)
Lemma fetch_succeeds_exactly_on_2xx_json_witness :
  failed (@Response Chart.payload 204 (Malformed "Unexpected end of JSON input")) = true /\
  awaited (@Response Chart.payload 304 (Json (Chart.Build_payload None None JUndefined)))
    = Throw "HTTP error! status: 304".
Proof.
  split.
  - destruct (failed (@Response Chart.payload 204
                        (Malformed "Unexpected end of JSON input"))) eqn:H;
      [reflexivity|].
    apply (proj1 (fetch_succeeds_exactly_on_2xx_json _)) in H.
    destruct H as (status & result & Heq & _). discriminate Heq.
  - apply (proj2 (fetch_succeeds_exactly_on_2xx_json _) 304 _ eq_refl). lia.
Defined.

(** ** Runs of the life cycle *)

Section RunFacts.

Context {cells effect payload : Type}.
Variable settle : outcome payload -> cells -> cells * list effect.
Variable retry_offered : cells -> bool.

Local Abbreviation instance := (@Poller.instance cells effect).
Local Abbreviation event := (@Poller.event payload).
Local Abbreviation step := (Poller.step settle retry_offered).
Local Abbreviation run := (Poller.run settle retry_offered).

Lemma settle_each_app (os os' : list (outcome payload)) (c : cells) :
  fst (Poller.settle_each settle (os ++ os') c) =
  fst (Poller.settle_each settle os' (fst (Poller.settle_each settle os c))).
Proof.
  revert c. induction os as [|o os IH]; intros c; simpl; [reflexivity|].
  destruct (settle o c) as [c1 made1]. specialize (IH c1).
  destruct (Poller.settle_each settle (os ++ os') c1) as [c2 made2].
  destruct (Poller.settle_each settle os c1) as [c3 made3].
  exact IH.
Qed.

(** The cells after a run are those of the continuation run once per
    settled fetch, in the order of settlement. *)
Lemma run_hooks (es : list event) (i i' : instance) :
  run i es = Some i' ->
  Poller.hooks i' = fst (Poller.settle_each settle (outcomes es) (Poller.hooks i)).
Proof.
  revert i. induction es as [|e es IH]; intros i; simpl.
  - now intros [= <-].
  - destruct (step i e) as [j|] eqn:Hstep; [|discriminate].
    intros Hrun. rewrite (IH _ Hrun), (step_hooks _ _ _ _ _ Hstep).
    destruct e; simpl; try reflexivity.
    destruct (settle o (Poller.hooks i)) as [c made]. simpl.
    now destruct (Poller.settle_each settle (outcomes es) c).
Qed.

Lemma run_pending (es : list event) (i i' : instance) :
  run i es = Some i' ->
  (Poller.pending i' + how_many Poller.is_settled es =
   Poller.pending i + how_many is_tick es + how_many is_retry es)%nat.
Proof.
  unfold how_many. revert i. induction es as [|e es IH]; intros i; simpl.
  - intros [= <-]. lia.
  - destruct e; simpl.
    + destruct (Poller.interval i); [|discriminate].
      intros Hrun. apply IH in Hrun. simpl in Hrun. lia.
    + destruct (Poller.pending i) as [|n] eqn:Hp; [discriminate|].
      destruct (settle o (Poller.hooks i)).
      intros Hrun. apply IH in Hrun. simpl in Hrun. lia.
    + destruct (_ && _); [|discriminate].
      intros Hrun. apply IH in Hrun. simpl in Hrun. lia.
    + destruct (Poller.mounted i); [|discriminate].
      intros Hrun. apply IH in Hrun. simpl in Hrun. lia.
Qed.

Lemma run_while_mounted (es : list event) (i i' : instance) (due : Z) :
  existsb is_unmount es = false ->
  Poller.mounted i = true ->
  Poller.interval i = Some due ->
  Forall (fun c => fst c = true) (Poller.calls i) ->
  run i es = Some i' ->
  Poller.mounted i' = true /\
  Poller.interval i' = Some (due + Poller.period * Z.of_nat (how_many is_tick es)) /\
  Forall (fun c => fst c = true) (Poller.calls i').
Proof.
  unfold how_many.
  revert i due. induction es as [|e es IH]; intros i due Hno Hm Hi Hc; simpl.
  - intros [= <-]. repeat split; auto. rewrite Hi. f_equal.
    unfold Poller.period. simpl. lia.
  - simpl in Hno. apply orb_false_elim in Hno as [He Hno].
    destruct e; simpl; try discriminate He.
    + rewrite Hi. intros Hrun.
      apply (IH _ (due + Poller.period)) in Hrun; auto.
      destruct Hrun as (Hm' & Hi' & Hc'). repeat split; auto.
      rewrite Hi'. f_equal. unfold Poller.period. simpl List.length. lia.
    + destruct (Poller.pending i) as [|n]; [discriminate|].
      destruct (settle o (Poller.hooks i)) as [c made].
      intros Hrun. apply (IH _ due) in Hrun; auto.
      simpl. rewrite Hm. apply Forall_app. split; [assumption|].
      apply Forall_forall. intros x Hx. apply in_map_iff in Hx.
      now destruct Hx as (y & <- & _).
    + destruct (_ && _); [|discriminate].
      intros Hrun. apply (IH _ due) in Hrun; auto.
Qed.

End RunFacts.

Lemma display_never_retries (es : list Display.event) (i i' : Display.instance) :
  Display.run i es = Some i' -> how_many is_retry es = 0%nat.
Proof.
  unfold how_many, Display.run.
  revert i. induction es as [|e es IH]; intros i; simpl; [reflexivity|].
  destruct e; simpl.
  - destruct (Poller.interval i); [|discriminate]. apply IH.
  - destruct (Poller.pending i); [discriminate|].
    destruct (Display.fetchTemperature o (Poller.hooks i)). apply IH.
  - rewrite Bool.andb_false_r. discriminate.
  - destruct (Poller.mounted i); [|discriminate]. apply IH.
Qed.

(** X2.  Along every run from mount, the fetches still in flight are those
    issued and not yet settled: one on mount, one per tick of the timer and,
    for the chart, one per click on Retry.  A tick issues a fetch whether or
    not earlier ones are still pending; the latest-reading poller has no
    retry at all. *)
Theorem fetches_in_flight_are_accounted_for :
  (forall (es : list Display.event) (i : Display.instance),
      Display.run Display.mount es = Some i ->
      (Poller.pending i + how_many Poller.is_settled es
       = 1 + how_many is_tick es)%nat /\
      how_many is_retry es = 0%nat) /\
  (forall (es : list Chart.event) (i : Chart.instance),
      Chart.run Chart.mount es = Some i ->
      (Poller.pending i + how_many Poller.is_settled es
       = 1 + how_many is_tick es + how_many is_retry es)%nat).
Proof.
  split; intros es i Hrun.
  - pose proof (display_never_retries _ _ _ Hrun) as Hnone.
    split; [|assumption].
    apply run_pending in Hrun. simpl in Hrun. lia.
  - apply run_pending in Hrun. simpl in Hrun. lia.
Qed.

(** Two ticks while the first fetch is still pending, then one settlement:
    two fetches remain in flight. *)
Lemma fetches_in_flight_are_accounted_for_witness :
  exists i,
    Display.run Display.mount
      [Poller.Tick; Poller.Tick; Poller.Settled (NetworkError "Failed to fetch")]
      = Some i /\
    Poller.pending i = 2%nat.
Proof.
  eexists. split; [reflexivity|].
  pose proof (proj1 (proj1 fetches_in_flight_are_accounted_for
    [Poller.Tick; Poller.Tick; Poller.Settled (NetworkError "Failed to fetch")]
    _ eq_refl)) as H.
  unfold how_many in H. simpl in H. simpl. lia.
Defined.

(** X3.  As long as the component is not unmounted, whatever fetches have
    failed or succeeded: it stays mounted, the timer stays armed with its
    next firing one period after the last, so a further tick is always
    possible (no failure stops the polling and nothing stretches the
    period), and every call made so far was made while mounted. *)
Theorem polling_continues_while_mounted :
  (forall (es : list Display.event) (i : Display.instance),
      existsb is_unmount es = false ->
      Display.run Display.mount es = Some i ->
      Poller.mounted i = true /\
      Poller.interval i = Some (30000 * (1 + Z.of_nat (how_many is_tick es))) /\
      (exists i', Display.step i Poller.Tick = Some i') /\
      Forall (fun c => fst c = true) (Poller.calls i)) /\
  (forall (es : list Chart.event) (i : Chart.instance),
      existsb is_unmount es = false ->
      Chart.run Chart.mount es = Some i ->
      Poller.mounted i = true /\
      Poller.interval i = Some (30000 * (1 + Z.of_nat (how_many is_tick es))) /\
      (exists i', Chart.step i Poller.Tick = Some i') /\
      Forall (fun c => fst c = true) (Poller.calls i)).
Proof.
  split; intros es i Hno Hrun.
  - destruct (run_while_mounted _ _ es Display.mount i Poller.period
                Hno eq_refl eq_refl (Forall_nil _) Hrun) as (Hm & Hi & Hc).
    assert (Hi' : Poller.interval i
                  = Some (30000 * (1 + Z.of_nat (how_many is_tick es))))
      by (rewrite Hi; f_equal; unfold Poller.period; lia).
    repeat split; auto.
    unfold Display.step, Poller.step. rewrite Hi'. eauto.
  - destruct (run_while_mounted _ _ es Chart.mount i Poller.period
                Hno eq_refl eq_refl (Forall_nil _) Hrun) as (Hm & Hi & Hc).
    assert (Hi' : Poller.interval i
                  = Some (30000 * (1 + Z.of_nat (how_many is_tick es))))
      by (rewrite Hi; f_equal; unfold Poller.period; lia).
    repeat split; auto.
    unfold Chart.step, Poller.step. rewrite Hi'. eauto.
Qed.

(** After the sample run, with its one tick, the timer is due at 60 s. *)
Lemma polling_continues_while_mounted_witness :
  exists i,
    Chart.run Chart.mount Chart.sample_run = Some i /\
    Poller.interval i = Some 60000 /\
    Forall (fun c => fst c = true) (Poller.calls i).
Proof.
  eexists. split; [reflexivity|].
  destruct (proj2 polling_continues_while_mounted Chart.sample_run _
              eq_refl eq_refl) as (_ & Hi & _ & Hc).
  split; [exact Hi | exact Hc].
Defined.

(** ** What the components show after a run *)

Lemma display_success (o : outcome Display.reading) (r : Display.reading)
      (s : Display.state) :
  awaited o = Normal r ->
  fst (Display.fetchTemperature o s) = {| Display.data := r; Display.loading := false |}.
Proof. unfold Display.fetchTemperature. intros ->. now destruct r. Qed.

Lemma display_failure (o : outcome Display.reading) (s : Display.state) :
  failed o = true ->
  fst (Display.fetchTemperature o s)
  = {| Display.data := Display.data s; Display.loading := false |}.
Proof.
  unfold failed, Display.fetchTemperature.
  destruct (awaited o); [discriminate|]. intros _. simpl. now rewrite spread_same.
Qed.

Lemma display_failures (os : list (outcome Display.reading)) (s : Display.state) :
  all_failed os -> os <> [] ->
  fst (Poller.settle_each Display.fetchTemperature os s)
  = {| Display.data := Display.data s; Display.loading := false |}.
Proof.
  intros Hall. revert s. induction Hall as [|o os Ho Hos IH]; intros s Hne;
    [contradiction|].
  simpl. pose proof (display_failure o s Ho) as Hf.
  destruct (Display.fetchTemperature o s) as [s1 made1]. simpl in Hf. subst s1.
  destruct os as [|o' os'].
  - reflexivity.
  - specialize (IH {| Display.data := Display.data s; Display.loading := false |}).
    destruct (Poller.settle_each Display.fetchTemperature (o' :: os') _).
    simpl in *. apply IH. discriminate.
Qed.

Lemma settle_each_one {cells effect payload : Type}
      (settle : outcome payload -> cells -> cells * list effect)
      (o : outcome payload) (c : cells) :
  fst (Poller.settle_each settle [o] c) = fst (settle o c).
Proof. simpl. now destruct (settle o c). Qed.

(** X4.  What the latest-reading poller shows after a run depends on the
    settlements only, in the order in which they happened: if some fetch
    succeeded, the card of the result of the last one that did, each field
    as that response had it; if fetches settled and all failed, the card
    with the placeholders and no indicator. *)
Theorem display_shows_the_last_success
    (h : host) (es : list Display.event) (i : Display.instance) :
  Display.run Display.mount es = Some i ->
  (forall os1 o r os2,
      outcomes es = (os1 ++ o :: os2)%list ->
      awaited o = Normal r ->
      all_failed os2 ->
      Display.TemperatureDisplay h (Poller.hooks i)
      = Display.Card (Display.TemperatureCard h r)) /\
  (outcomes es <> [] ->
   all_failed (outcomes es) ->
   Display.TemperatureDisplay h (Poller.hooks i)
   = Display.Card {| Display.clock := "--:--";
                     Display.shown := JStr "--";
                     Display.direction := None |}).
Proof.
  intros Hrun. apply run_hooks in Hrun. split.
  - intros os1 o r os2 Hos Ho Hfail.
    rewrite Hrun, Hos, settle_each_app. simpl.
    pose proof (display_success o r
      (fst (Poller.settle_each Display.fetchTemperature os1
              (Poller.hooks Display.mount))) Ho) as Hs.
    destruct (Display.fetchTemperature o _) as [s1 made1]. simpl in Hs. subst s1.
    destruct os2 as [|o2 os2'].
    + reflexivity.
    + pose proof (display_failures (o2 :: os2')
                    {| Display.data := r; Display.loading := false |} Hfail) as Hf.
      destruct (Poller.settle_each Display.fetchTemperature (o2 :: os2') _).
      simpl in *. rewrite Hf; [reflexivity | discriminate].
  - intros Hne Hfail.
    rewrite Hrun, (display_failures _ _ Hfail Hne). reflexivity.
Qed.

(** A success, then a failure that settles later: the card of the success. *)
Lemma display_shows_the_last_success_witness :
  exists i,
    Display.run Display.mount
      [Poller.Tick;
       Poller.Settled (Response 200 (Json
         {| Display.temperature := JNum (Num.of_Z 21);
            Display.time := JStr "2024-01-15T10:30:00Z";
            Display.trend := JStr "down" |}));
       Poller.Settled (Response 502 (Malformed "Unexpected token"))] = Some i /\
    Display.TemperatureDisplay UtcHost.utc (Poller.hooks i)
    = Display.Card {| Display.clock := "10:30";
                      Display.shown := JNum (Num.of_Z 21);
                      Display.direction := Some Display.Falling |}.
Proof.
  eexists. split; [reflexivity|].
  refine (proj1 (display_shows_the_last_success UtcHost.utc
    [Poller.Tick;
     Poller.Settled (Response 200 (Json
       {| Display.temperature := JNum (Num.of_Z 21);
          Display.time := JStr "2024-01-15T10:30:00Z";
          Display.trend := JStr "down" |}));
     Poller.Settled (Response 502 (Malformed "Unexpected token"))]
    _ eq_refl) [] _ _ [_] eq_refl eq_refl _).
  repeat constructor.
Defined.

Lemma chart_success (o : outcome Chart.payload) (r : Chart.payload)
      (s : Chart.state) :
  awaited o = Normal r ->
  fst (Chart.fetchTemperatureHistory o s)
  = {| Chart.temperatureData := fetched r; Chart.loading := false;
       Chart.error := JNull |}.
Proof. unfold Chart.fetchTemperatureHistory. now intros ->. Qed.

Lemma chart_failure (o : outcome Chart.payload) (m : string) (s : Chart.state) :
  awaited o = Throw m ->
  fst (Chart.fetchTemperatureHistory o s)
  = {| Chart.temperatureData := Chart.temperatureData s; Chart.loading := false;
       Chart.error := JStr m |}.
Proof. unfold Chart.fetchTemperatureHistory. now intros ->. Qed.

Lemma chart_failures_keep_window (os : list (outcome Chart.payload))
      (s : Chart.state) :
  all_failed os ->
  Chart.temperatureData (fst (Poller.settle_each Chart.fetchTemperatureHistory os s))
  = Chart.temperatureData s.
Proof.
  intros Hall. revert s. induction Hall as [|o os Ho Hos IH]; intros s;
    [reflexivity|].
  simpl. unfold failed in Ho.
  destruct (awaited o) as [r|m] eqn:Hm; [discriminate|].
  pose proof (chart_failure o m s Hm) as Hf.
  destruct (Chart.fetchTemperatureHistory o s) as [s1 made1]. simpl in Hf. subst s1.
  specialize (IH {| Chart.temperatureData := Chart.temperatureData s;
                    Chart.loading := false; Chart.error := JStr m |}).
  destruct (Poller.settle_each Chart.fetchTemperatureHistory os _).
  exact IH.
Qed.

(** X5.  What the history poller shows after a run is decided by the fetch
    that settled last, whichever was issued first: if it succeeded, the
    chart of its window; if it failed with a message, the error view with
    that message, whatever was fetched before. *)
Theorem chart_shows_the_last_settlement
    (h : host) (es : list Chart.event) (i : Chart.instance)
    (os : list (outcome Chart.payload)) (o : outcome Chart.payload) :
  Chart.run Chart.mount es = Some i ->
  outcomes es = (os ++ [o])%list ->
  (forall r, awaited o = Normal r ->
     Chart.TemperatureChart h (Poller.hooks i) = Chart.ChartView (charted h (fetched r))) /\
  (forall m, awaited o = Throw m -> m <> "" ->
     Chart.TemperatureChart h (Poller.hooks i) = Chart.ErrorView (JStr m)).
Proof.
  intros Hrun Hos. apply run_hooks in Hrun.
  rewrite Hos, settle_each_app, settle_each_one in Hrun. split.
  - intros r Hr. rewrite Hrun, (chart_success o r _ Hr). reflexivity.
  - intros m Hm Hne. rewrite Hrun, (chart_failure o m _ Hm).
    unfold Chart.TemperatureChart. cbn [Chart.loading Chart.error truthy].
    destruct (String.eqb_spec m ""); [contradiction|reflexivity].
Qed.

(** The sample run ends with a success; a 500 settling after it puts the
    error view in place of the chart. *)
Lemma chart_shows_the_last_settlement_witness :
  exists i,
    Chart.run Chart.mount
      (Chart.sample_run ++ [Poller.Tick; Poller.Settled (Response 500 (JsonNull "null"))])
      = Some i /\
    Chart.TemperatureChart UtcHost.utc (Poller.hooks i)
    = Chart.ErrorView (JStr "HTTP error! status: 500").
Proof.
  eexists. split; [reflexivity|].
  assert (Hne : "HTTP error! status: 500" <> "") by discriminate.
  exact (proj2 (chart_shows_the_last_settlement UtcHost.utc
    (Chart.sample_run ++ [Poller.Tick; Poller.Settled (Response 500 (JsonNull "null"))])
    _ (outcomes Chart.sample_run) (Response 500 (JsonNull "null"))
    eq_refl eq_refl) _ eq_refl Hne).
Defined.

(** X6.  Failures never touch the stored window of the history poller:
    after a run, the window in the cell is the one of the last successful
    fetch, however many failures settled after it, and the empty initial
    window if fetches settled and none succeeded. *)
Theorem chart_window_is_of_the_last_success
    (es : list Chart.event) (i : Chart.instance) :
  Chart.run Chart.mount es = Some i ->
  (forall os1 o r os2,
      outcomes es = (os1 ++ o :: os2)%list ->
      awaited o = Normal r ->
      all_failed os2 ->
      Chart.temperatureData (Poller.hooks i) = fetched r) /\
  (all_failed (outcomes es) ->
   Chart.temperatureData (Poller.hooks i)
   = {| Chart.timestamps := []; Chart.temperatures := [];
        Chart.count := JNum Num.zero |}).
Proof.
  intros Hrun. apply run_hooks in Hrun. split.
  - intros os1 o r os2 Hos Ho Hfail.
    change (o :: os2) with ([o] ++ os2)%list in Hos.
    rewrite Hrun, Hos, settle_each_app, settle_each_app, settle_each_one.
    rewrite (chart_failures_keep_window _ _ Hfail).
    now rewrite (chart_success o r _ Ho).
  - intros Hfail. rewrite Hrun.
    now rewrite (chart_failures_keep_window _ _ Hfail).
Qed.

(** The sample run followed by a failure: the window is still the one the
    sample run fetched. *)
Lemma chart_window_is_of_the_last_success_witness :
  exists i,
    Chart.run Chart.mount
      (Chart.sample_run ++ [Poller.Tick; Poller.Settled (NetworkError "Failed to fetch")])
      = Some i /\
    Chart.temperatureData (Poller.hooks i)
    = {| Chart.timestamps := [JStr "2024-01-15T10:30:00Z"];
         Chart.temperatures := [Chart.SNum (Num.of_Z 21)];
         Chart.count := JNum (Num.of_Z 1) |}.
Proof.
  eexists. split; [reflexivity|].
  refine (proj1 (chart_window_is_of_the_last_success
    (Chart.sample_run ++ [Poller.Tick; Poller.Settled (NetworkError "Failed to fetch")])
    _ eq_refl) [_] _ _ [_] eq_refl eq_refl _).
  repeat constructor.
Defined.

(** X7.  The error view of the chart depends on the message being a
    non-empty string, not on the fetch having failed: a failure whose error
    carries the empty message leaves the chart of the stored window on
    screen, with no Retry button, although the error cell was set. *)
Theorem empty_message_leaves_the_chart
    (h : host) (o : outcome Chart.payload) (s : Chart.state) :
  awaited o = Throw "" ->
  Chart.error (fst (Chart.fetchTemperatureHistory o s)) = JStr "" /\
  Chart.TemperatureChart h (fst (Chart.fetchTemperatureHistory o s))
  = Chart.ChartView (charted h (Chart.temperatureData s)) /\
  Chart.retry_offered (fst (Chart.fetchTemperatureHistory o s)) = false.
Proof.
  intros Ho. rewrite (chart_failure o "" s Ho). repeat split.
Qed.

Lemma empty_message_leaves_the_chart_witness :
  Chart.TemperatureChart UtcHost.utc
    (fst (Chart.fetchTemperatureHistory (NetworkError "") Chart.initial))
  = Chart.ChartView {| Chart.reported := JNum Num.zero; Chart.labels := [];
                       Chart.dataset := []; Chart.block := None |}.
Proof.
  exact (proj1 (proj2 (empty_message_leaves_the_chart UtcHost.utc
                         (NetworkError "") Chart.initial eq_refl))).
Defined.

(** X8.  In the chart, a click on Retry is possible exactly when the
    component is mounted and renders the error view; the loading view and
    the chart view offer none.  The latest-reading poller accepts no Retry
    in any state. *)
Theorem retry_only_from_the_error_view :
  (forall (h : host) (i : Chart.instance),
      (exists i', Chart.step i Poller.Retry = Some i') <->
      Poller.mounted i = true /\
      exists m, Chart.TemperatureChart h (Poller.hooks i) = Chart.ErrorView m) /\
  (forall i : Display.instance, Display.step i Poller.Retry = None).
Proof.
  split.
  - intros h i. unfold Chart.step, Poller.step, Chart.retry_offered,
      Chart.TemperatureChart.
    destruct (Poller.mounted i), (Chart.loading (Poller.hooks i)),
      (truthy (Chart.error (Poller.hooks i))); simpl; split;
      intros H;
      try (destruct H as [i' H]; discriminate H);
      try (destruct H as [H _]; discriminate H);
      try (destruct H as [_ [m H]]; discriminate H);
      eauto.
  - intros i. unfold Display.step, Poller.step.
    now rewrite Bool.andb_false_r.
Qed.

(** After a failed first fetch the chart accepts a Retry; while loading it
    does not. *)
Lemma retry_only_from_the_error_view_witness :
  (exists i i',
      Chart.step Chart.mount (Poller.Settled (NetworkError "Failed to fetch")) = Some i /\
      Chart.step i Poller.Retry = Some i') /\
  Chart.step Chart.mount Poller.Retry = None.
Proof.
  split.
  - assert (Hs : exists i,
               Chart.step Chart.mount (Poller.Settled (NetworkError "Failed to fetch"))
               = Some i /\
               Poller.mounted i = true /\
               Chart.TemperatureChart UtcHost.utc (Poller.hooks i)
               = Chart.ErrorView (JStr "Failed to fetch"))
      by (eexists; repeat split).
    destruct Hs as (i & Hs & Hm & Hv).
    destruct (proj2 (proj1 retry_only_from_the_error_view UtcHost.utc i)
                (conj Hm (ex_intro _ _ Hv))) as [i' Hi'].
    exists i, i'. split; assumption.
  - destruct (Chart.step Chart.mount Poller.Retry) as [i'|] eqn:H; [|reflexivity].
    destruct (proj1 (proj1 retry_only_from_the_error_view UtcHost.utc Chart.mount)
                (ex_intro _ i' H)) as [_ [m Hm]].
    discriminate Hm.
Defined.

(** ** The theme *)

(** X9.  [getInitialDark] answers dark exactly when storage is available
    and either the stored theme is the string ["dark"], or no theme is
    stored (null or the empty string) and the system prefers dark.  Any
    other stored theme means light, whatever the system prefers; without
    storage the answer is light. *)
Theorem getInitialDark_characterised (b : Theme.browser) :
  Theme.getInitialDark b = true <->
  Theme.has_storage b = true /\
  (Theme.stored_theme b = Some "dark" \/
   ((Theme.stored_theme b = None \/ Theme.stored_theme b = Some "") /\
    Theme.prefers_dark b = true)).
Proof.
  destruct b as [storage theme prefers]. unfold Theme.getInitialDark. simpl.
  destruct storage; [|split; [discriminate | intros [[=] _]]].
  destruct theme as [theme|].
  - destruct (String.eqb_spec theme "") as [->|Hne]; simpl.
    + split.
      * intros ->. split; [reflexivity|]. right. split; [now right | reflexivity].
      * intros [_ [[=] | [_ ->]]]. reflexivity.
    + destruct (String.eqb_spec theme "dark") as [->|Hnd]; split.
      * intros _. split; [reflexivity | now left].
      * reflexivity.
      * discriminate.
      * intros [_ [[= ->] | [[[=] | [= ->]] _]]]; contradiction.
  - split.
    + intros ->. split; [reflexivity|]. right. split; [now left | reflexivity].
    + intros [_ [[=] | [_ ->]]]. reflexivity.
Qed.

(** A stored ["light"] wins over a system that prefers dark. *)
Lemma getInitialDark_characterised_witness :
  Theme.getInitialDark
    {| Theme.has_storage := true; Theme.stored_theme := Some "light";
       Theme.prefers_dark := true |} = false /\
  Theme.getInitialDark
    {| Theme.has_storage := true; Theme.stored_theme := Some "";
       Theme.prefers_dark := true |} = true.
Proof.
  split.
  - destruct (Theme.getInitialDark _) eqn:H; [|reflexivity].
    apply (proj1 (getInitialDark_characterised _)) in H.
    destruct H as [_ [H | [[H | H] _]]]; discriminate H.
  - apply (proj2 (getInitialDark_characterised _)).
    split; [reflexivity|]. right. split; [now right | reflexivity].
Defined.

Lemma theme_run_app (es es' : list Theme.event) (c : Theme.component) :
  Theme.run c (es ++ es') =
  match Theme.run c es with
  | Some c' => Theme.run c' es'
  | None => None
  end.
Proof.
  revert c. induction es as [|e es IH]; intros c; simpl; [reflexivity|].
  destruct (Theme.step c e); [apply IH | reflexivity].
Qed.

Lemma theme_run_polls (es : list Theme.event) (c c' : Theme.component) :
  Theme.run c es = Some c' ->
  Chart.run (Theme.poller c) (Theme.polls es) = Some (Theme.poller c').
Proof.
  revert c. induction es as [|e es IH]; intros c; simpl.
  - now intros [= <-].
  - destruct e as [e'|classList]; simpl.
    + unfold Chart.run. simpl. fold (Chart.step (Theme.poller c) e').
      destruct (Chart.step (Theme.poller c) e') as [p|]; [|discriminate].
      intros Hrun. apply IH in Hrun. exact Hrun.
    + destruct (Theme.observing c); [|discriminate].
      intros Hrun. apply IH in Hrun. exact Hrun.
Qed.

Lemma theme_run_isDark (es : list Theme.event) (c c' : Theme.component) :
  existsb Theme.is_class_change es = false ->
  Theme.run c es = Some c' ->
  Theme.isDark c' = Theme.isDark c.
Proof.
  revert c. induction es as [|e es IH]; intros c; simpl.
  - now intros _ [= <-].
  - destruct e as [e'|classList]; simpl; [|discriminate].
    intros Hno. destruct (Chart.step (Theme.poller c) e'); [|discriminate].
    intros Hrun. now rewrite (IH _ Hno Hrun).
Qed.

Lemma theme_run_disconnected (es : list Theme.event) (c c' : Theme.component) :
  Theme.observing c = false ->
  Theme.run c es = Some c' ->
  existsb Theme.is_class_change es = false.
Proof.
  revert c. induction es as [|e es IH]; intros c Hobs; simpl; [reflexivity|].
  destruct e as [e'|classList]; simpl.
  - destruct (Chart.step (Theme.poller c) e'); [|discriminate].
    apply IH. simpl. now destruct e'.
  - rewrite Hobs. discriminate.
Qed.

(** X10.  The theme and the polling of the chart component do not touch
    each other.  Along every run, the polling cells are what the polling
    events alone produce, whatever the class changes in between; [isDark] is
    the initial choice until the class of the body changes and from then on
    says whether the class list at the last change contained ["dark"],
    whatever was fetched; and once the component is unmounted no class
    change reaches it. *)
Theorem theme_and_polling_do_not_interfere
    (b : Theme.browser) (es : list Theme.event) (c : Theme.component) :
  Theme.run (Theme.mount b) es = Some c ->
  Chart.run Chart.mount (Theme.polls es) = Some (Theme.poller c) /\
  (existsb Theme.is_class_change es = false ->
   Theme.isDark c = Theme.getInitialDark b) /\
  (forall es1 classList es2,
      es = (es1 ++ Theme.BodyClassChanged classList :: es2)%list ->
      existsb Theme.is_class_change es2 = false ->
      Theme.isDark c = Theme.contains "dark" classList) /\
  (forall es1 es2,
      es = (es1 ++ Theme.Poll Poller.Unmount :: es2)%list ->
      existsb Theme.is_class_change es2 = false).
Proof.
  intros Hrun. repeat split.
  - exact (theme_run_polls _ _ _ Hrun).
  - intros Hno. exact (theme_run_isDark _ _ _ Hno Hrun).
  - intros es1 classList es2 -> Hno.
    rewrite theme_run_app in Hrun.
    destruct (Theme.run (Theme.mount b) es1) as [c1|]; [|discriminate].
    simpl in Hrun. destruct (Theme.observing c1); [|discriminate].
    now rewrite (theme_run_isDark _ _ _ Hno Hrun).
  - intros es1 es2 ->.
    rewrite theme_run_app in Hrun.
    destruct (Theme.run (Theme.mount b) es1) as [c1|]; [|discriminate].
    cbn [Theme.run Theme.step] in Hrun.
    destruct (Chart.step (Theme.poller c1) Poller.Unmount); [|discriminate].
    eapply theme_run_disconnected; [|exact Hrun]. reflexivity.
Qed.

(** A stored dark theme, the body switched to light while the first fetch
    is in flight, then the fetch succeeding. *)
Lemma theme_and_polling_do_not_interfere_witness :
  exists c,
    Theme.run (Theme.mount Theme.sample_browser) Theme.sample_run = Some c /\
    Theme.isDark c = false /\
    Chart.loading (Poller.hooks (Theme.poller c)) = false.
Proof.
  eexists. split; [reflexivity|].
  destruct (theme_and_polling_do_not_interfere Theme.sample_browser
              Theme.sample_run _ eq_refl) as (_ & _ & Hdark & _).
  split; [|reflexivity].
  exact (Hdark [] ["app"; "light"] [_] eq_refl eq_refl).
Defined.

(** ** More on the statistics block *)

(** X11.  In every non-empty window, nulls included, the current figure is
    taken from the last element alone: that element to one decimal when it
    is a number, and nothing at all when it is null, whatever stands before
    it. *)
Theorem current_is_the_last_element (x : Chart.sample) (xs : list Chart.sample) :
  exists avg rng,
    Chart.statistics (x :: xs) =
      Some {| Chart.current := match last (x :: xs) x with
                               | Chart.SNum y => Some (toFixed1 y)
                               | Chart.SNull => None
                               end;
              Chart.average := avg;
              Chart.range := rng |}.
Proof.
  unfold Chart.statistics. rewrite last_index.
  destruct (Z.ltb_spec 0 (Chart.length (x :: xs))) as [_|Hneg].
  - set (l := last (x :: xs) x). eexists _, _.
    unfold Chart.optional_toFixed1. destruct l; reflexivity.
  - unfold Chart.length in Hneg. simpl List.length in Hneg. lia.
Qed.

(** X12.  A null anywhere in the window enters [Math.max] and [Math.min]
    as 0: the maximum is then at least 0 and the minimum at most 0, so the
    range always spans 0, also when every reading lies on one side of it. *)
Theorem null_puts_zero_into_the_range (a : list Chart.sample) :
  In Chart.SNull a ->
  no_nan (map Chart.ToNumber a) ->
  leb Num.zero (Chart.Math_max a) = true /\
  leb (Chart.Math_min a) Num.zero = true.
Proof.
  intros Hin Hnan.
  assert (Hzero : In Num.zero (map Chart.ToNumber a))
    by (apply in_map_iff; exists Chart.SNull; auto).
  unfold Chart.Math_max, Chart.Math_min.
  destruct (map Chart.ToNumber a) as [|n ns]; [destruct Hzero|].
  split.
  - apply (max_is_greatest n ns Hnan). exact Hzero.
  - apply (min_is_least n ns Hnan). exact Hzero.
Qed.

(** Readings of -5 and -3 with a null between them: the maximum is 0. *)
Lemma null_puts_zero_into_the_range_witness :
  let a := [Chart.SNum (Num.of_Z (-5)); Chart.SNull; Chart.SNum (Num.of_Z (-3))] in
  leb Num.zero (Chart.Math_max a) = true /\
  leb (Chart.Math_min a) Num.zero = true /\
  Chart.Math_max a = Num.zero.
Proof.
  intros a.
  assert (Hin : In Chart.SNull a) by (right; left; reflexivity).
  assert (Hnan : no_nan (map Chart.ToNumber a)) by (repeat constructor).
  destruct (null_puts_zero_into_the_range a Hin Hnan) as [Hmax Hmin].
  split; [exact Hmax | split; [exact Hmin | reflexivity]].
Defined.

Lemma ltb_irrefl (x : number) : Num.ltb x x = false.
Proof.
  unfold Num.ltb, SFltb, SFcompare.
  destruct x as [s|s| |s m e]; try (destruct s; reflexivity); try reflexivity.
  rewrite Z.compare_refl, compare_cont_is_compare, Pos.compare_refl.
  now destruct s.
Qed.

Lemma max_from_constant (x : number) (n : nat) :
  Num.is_nan x = false ->
  Chart.max_from x (repeat x n) = x.
Proof.
  intros Hx. induction n as [|n IH]; simpl; [reflexivity|].
  rewrite Hx, ltb_irrefl, IH.
  now destruct x as [[]| | |].
Qed.

Lemma min_from_constant (x : number) (n : nat) :
  Num.is_nan x = false ->
  Chart.min_from x (repeat x n) = x.
Proof.
  intros Hx. induction n as [|n IH]; simpl; [reflexivity|].
  rewrite Hx, ltb_irrefl, IH.
  now destruct x as [[]| | |].
Qed.

Lemma sub_self (x : number) : finite x = true -> Num.sub x x = Num.zero.
Proof.
  destruct x as [s|s| |s m e]; try discriminate; intros _.
  - now destruct s.
  - unfold Num.sub, SFsub. rewrite Z.min_id.
    unfold shl_align. rewrite Z.sub_diag. simpl fst.
    rewrite ?Z.sub_diag. reflexivity.
Qed.

(** X13.  A window in which every reading is the same finite value, a
    single reading included, has the range 0.0, and its current figure is
    that value to one decimal. *)
Theorem constant_window_has_no_range (x : number) (n : nat) :
  finite x = true ->
  exists avg,
    Chart.statistics (repeat (Chart.SNum x) (S n)) =
      Some {| Chart.current := Some (toFixed1 x);
              Chart.average := avg;
              Chart.range := Text "0.0" |}.
Proof.
  intros Hfin.
  assert (Hnan : Num.is_nan x = false) by (now destruct x).
  assert (Hidx : Chart.at_index (repeat (Chart.SNum x) (S n))
                   (Chart.length (repeat (Chart.SNum x) (S n)) - 1)
                 = Some (Chart.SNum x)).
  { change (repeat (Chart.SNum x) (S n))
      with (Chart.SNum x :: repeat (Chart.SNum x) n).
    rewrite last_index. f_equal.
    induction n as [|n IH]; [reflexivity | exact IH]. }
  assert (Hmax : Chart.Math_max (repeat (Chart.SNum x) (S n)) = x).
  { unfold Chart.Math_max. rewrite map_repeat.
    cbn [Chart.ToNumber repeat Chart.max_from]. rewrite Hnan.
    destruct x as [[]| | |[]]; try discriminate; simpl;
      apply max_from_constant; reflexivity. }
  assert (Hmin : Chart.Math_min (repeat (Chart.SNum x) (S n)) = x).
  { unfold Chart.Math_min. rewrite map_repeat.
    cbn [Chart.ToNumber repeat Chart.min_from]. rewrite Hnan.
    destruct x as [[]| | |[]]; try discriminate; simpl;
      apply min_from_constant; reflexivity. }
  unfold Chart.statistics. rewrite Hidx, Hmax, Hmin, (sub_self x Hfin).
  destruct (Z.ltb_spec 0 (Chart.length (repeat (Chart.SNum x) (S n)))) as [_|Hneg].
  - eexists. reflexivity.
  - unfold Chart.length in Hneg. rewrite repeat_length in Hneg. lia.
Qed.

(** Four readings of 19.5. *)
Lemma constant_window_has_no_range_witness :
  exists avg,
    Chart.statistics (repeat (Chart.SNum (Num.of_dyadic 39 (-1))) 4) =
      Some {| Chart.current := Some (Text "19.5");
              Chart.average := avg;
              Chart.range := Text "0.0" |}.
Proof.
  exact (constant_window_has_no_range (Num.of_dyadic 39 (-1)) 3 eq_refl).
Defined.

(** X14.  The history poller checks neither array against the other nor
    against the count: a successful response without temperatures (the
    field missing, null or empty) still draws one label per timestamp and
    the count as reported (0 when that is missing or falsy), with an empty
    dataset and no statistics block, and shows no error. *)
Theorem missing_temperatures_leave_the_labels
    (h : host) (o : outcome Chart.payload) (r : Chart.payload) (s : Chart.state) :
  awaited o = Normal r ->
  Chart.lastTemperatures r = None \/ Chart.lastTemperatures r = Some [] ->
  Chart.TemperatureChart h (fst (Chart.fetchTemperatureHistory o s)) =
    Chart.ChartView
      {| Chart.reported := if truthy (Chart.result_count r)
                           then Chart.result_count r else JNum Num.zero;
         Chart.labels := map (Chart.formatTimestamp h)
                             (Chart.or_empty (Chart.lastTimestamps r));
         Chart.dataset := [];
         Chart.block := None |}.
Proof.
  intros Ho Hnone. rewrite (chart_success o r s Ho).
  unfold Chart.TemperatureChart, fetched. cbn [Chart.loading Chart.error truthy
    Chart.temperatureData Chart.timestamps Chart.temperatures Chart.count].
  destruct Hnone as [-> | ->]; reflexivity.
Qed.

(** Two timestamps, no temperatures, a reported count of 5. *)
Lemma missing_temperatures_leave_the_labels_witness :
  Chart.TemperatureChart UtcHost.utc
    (fst (Chart.fetchTemperatureHistory
            (Response 200 (Json
               {| Chart.lastTimestamps :=
                    Some [JStr "2024-01-15T10:00:00Z"; JStr "2024-01-15T10:30:00Z"];
                  Chart.lastTemperatures := None;
                  Chart.result_count := JNum (Num.of_Z 5) |}))
            Chart.initial)) =
  Chart.ChartView
    {| Chart.reported := JNum (Num.of_Z 5);
       Chart.labels := [JStr "10:00"; JStr "10:30"];
       Chart.dataset := [];
       Chart.block := None |}.
Proof.
  pose (r := {| Chart.lastTimestamps :=
                  Some [JStr "2024-01-15T10:00:00Z"; JStr "2024-01-15T10:30:00Z"];
                Chart.lastTemperatures := None;
                Chart.result_count := JNum (Num.of_Z 5) |}).
  exact (missing_temperatures_leave_the_labels UtcHost.utc
           (Response 200 (Json r)) r Chart.initial eq_refl (or_introl eq_refl)).
Defined.

(** ** More on the clock texts *)

Lemma two_digit_table :
  forallb (fun k => two_digits (Date.two_digit (Z.of_nat k))) (seq 0 60) = true.
Proof. vm_compute. reflexivity. Qed.

Lemma two_digit_shape (n : Z) :
  0 <= n < 60 -> two_digits (Date.two_digit n) = true.
Proof.
  intros Hn. pose proof two_digit_table as Htable.
  rewrite forallb_forall in Htable.
  specialize (Htable (Z.to_nat n)).
  rewrite Z2Nat.id in Htable by lia.
  apply Htable. apply in_seq. lia.
Qed.

Lemma clock_shape (a b : string) :
  two_digits a = true -> two_digits b = true ->
  is_clock (a ++ ":" ++ b) = true.
Proof.
  unfold two_digits, is_clock.
  destruct a as [|a1 [|a2 [|a3 a]]]; simpl; try discriminate.
  destruct b as [|b1 [|b2 [|b3 b]]]; simpl; try discriminate.
  intros Ha Hb. apply andb_prop in Ha as [-> ->].
  apply andb_prop in Hb as [-> ->]. reflexivity.
Qed.

Lemma valid_date_is_clock (h : host) (t : Z) :
  exists s, Date.toLocaleTimeString h (Some t) = Normal s /\ is_clock s = true.
Proof.
  eexists. split; [reflexivity|].
  apply clock_shape; apply two_digit_shape.
  - pose proof (Z.mod_pos_bound ((t + LocalTZA h t) / Date.msPerHour) 24). lia.
  - apply Z.mod_pos_bound. lia.
Qed.

(** X15.  [formatTime] has three kinds of result and no other: the
    placeholder, exactly when the timestamp is falsy (null, undefined, the
    empty string, a zero or NaN number); the text ["Invalid Date"], when the
    browser makes no valid date of it; and otherwise two digits, a colon and
    two digits. *)
Theorem formatTime_results (h : host) (v : jsval) :
  (truthy v = false -> Display.formatTime h v = "--:--") /\
  (truthy v = true ->
   Display.formatTime h v = "Invalid Date" \/
   is_clock (Display.formatTime h v) = true).
Proof.
  unfold Display.formatTime. split; intros ->; [reflexivity|].
  cbn [negb]. unfold Date.format, Date.construct.
  destruct (match v with
            | JUndefined => None
            | JNull => Some 0
            | JNum x => Date.TimeClip x
            | JStr s => Date_parse h s
            end) as [t|].
  - right. now destruct (valid_date_is_clock h t) as (s & -> & Hs).
  - left. reflexivity.
Qed.

(** A parseable timestamp, an unparseable one, and an absent one. *)
Lemma formatTime_results_witness :
  is_clock (Display.formatTime UtcHost.utc (JStr "2024-01-15T23:59:59Z")) = true /\
  Display.formatTime UtcHost.utc (JNum Num.zero) = "--:--".
Proof.
  split.
  - destruct (proj2 (formatTime_results UtcHost.utc (JStr "2024-01-15T23:59:59Z"))
                eq_refl) as [H|H]; [discriminate H | exact H].
  - exact (proj1 (formatTime_results UtcHost.utc (JNum Num.zero)) eq_refl).
Defined.

(** X16.  [formatTimestamp] has no guard for an absent timestamp: a null,
    like the number 0, is labelled with the local clock time of the epoch,
    and undefined with ["Invalid Date"], where [formatTime] gives the
    placeholder for all three. *)
Theorem absent_timestamps_in_the_chart (h : host) :
  Chart.formatTimestamp h JNull = Chart.formatTimestamp h (JNum Num.zero) /\
  (exists s, Chart.formatTimestamp h JNull = JStr s /\ is_clock s = true) /\
  Chart.formatTimestamp h JUndefined = JStr "Invalid Date" /\
  Display.formatTime h JNull = "--:--" /\
  Display.formatTime h (JNum Num.zero) = "--:--" /\
  Display.formatTime h JUndefined = "--:--".
Proof.
  repeat split.
  unfold Chart.formatTimestamp, Date.format, Date.construct.
  destruct (valid_date_is_clock h 0) as (s & -> & Hs). eauto.
Qed.

(** X17.  After a successful fetch of the latest reading, the card shows
    the placeholder in place of the temperature only when the response had
    null there: a response that lacks the field gives undefined, which is
    passed on as it is and is not replaced by the placeholder. *)
Theorem placeholder_only_for_null
    (h : host) (o : outcome Display.reading) (r : Display.reading)
    (s : Display.state) :
  awaited o = Normal r ->
  let c := Display.TemperatureCard h (Display.data (fst (Display.fetchTemperature o s))) in
  (Display.shown c = JStr "--" <->
   Display.temperature r = JNull \/ Display.temperature r = JStr "--") /\
  (Display.temperature r <> JNull -> Display.shown c = Display.temperature r).
Proof.
  intros Ho. rewrite (display_success o r s Ho). simpl.
  destruct (Display.temperature r) as [| |x|t]; split;
    try (split; [discriminate | intros [H|H]; discriminate H]);
    try reflexivity.
  - split; [now left | reflexivity].
  - intros H. now contradiction H.
  - split; [intros [= ->]; now right | intros [H|H]; [discriminate H | exact H]].
Qed.

(** A response that has only the trend. *)
Lemma placeholder_only_for_null_witness :
  Display.shown (Display.TemperatureCard UtcHost.utc
    (Display.data (fst (Display.fetchTemperature
       (Response 200 (Json {| Display.temperature := JUndefined;
                              Display.time := JUndefined;
                              Display.trend := JStr "up" |}))
       Display.initial)))) = JUndefined.
Proof.
  pose (r := {| Display.temperature := JUndefined; Display.time := JUndefined;
                Display.trend := JStr "up" |}).
  assert (Hne : Display.temperature r <> JNull) by discriminate.
  exact (proj2 (placeholder_only_for_null UtcHost.utc (Response 200 (Json r)) r
                  Display.initial eq_refl) Hne).
Defined.

(** ** The statistics the chart view renders *)

Lemma statistics_nonempty (x : Chart.sample) (xs : list Chart.sample) :
  Chart.statistics (x :: xs) =
    Some {| Chart.current := Chart.optional_toFixed1 (Some (last (x :: xs) x));
            Chart.average :=
              toFixed1 (Num.div (Chart.reduce_sum (x :: xs))
                                (Num.of_Z (Chart.length (x :: xs))));
            Chart.range :=
              toFixed1 (Num.sub (Chart.Math_max (x :: xs))
                                (Chart.Math_min (x :: xs))) |}.
Proof.
  unfold Chart.statistics. rewrite last_index.
  destruct (Z.ltb_spec 0 (Chart.length (x :: xs))) as [_|Hneg]; [reflexivity|].
  unfold Chart.length in Hneg. simpl List.length in Hneg. lia.
Qed.

(** C1, as claimed, fails for a window that ends in a null: after a
    successful fetch of [20, null] the chart view is rendered with the
    statistics block, but the optional call is skipped and the block has no
    figure for current. *)
Lemma current_is_not_always_rendered :
  ~ every_window_renders_a_current_figure.
Proof.
  intros Hclaim.
  destruct (Hclaim UtcHost.utc
              (fst (Chart.fetchTemperatureHistory
                      (Response 200 (Json
                         {| Chart.lastTimestamps :=
                              Some [JStr "2024-01-15T10:00:00Z";
                                    JStr "2024-01-15T10:30:00Z"];
                            Chart.lastTemperatures :=
                              Some [Chart.SNum (Num.of_Z 20); Chart.SNull];
                            Chart.result_count := JNum (Num.of_Z 2) |}))
                      Chart.initial))
              (Chart.SNum (Num.of_Z 20)) [Chart.SNull]
              eq_refl eq_refl eq_refl)
    as (c & figures & figure & Hview & Hblock & Hcurrent).
  injection Hview as <-.
  change (Chart.statistics [Chart.SNum (Num.of_Z 20); Chart.SNull] = Some figures)
    in Hblock.
  rewrite statistics_nonempty in Hblock.
  apply (f_equal (option_map Chart.current)) in Hblock.
  cbn [option_map Chart.current Chart.optional_toFixed1 last] in Hblock.
  rewrite Hcurrent in Hblock. discriminate Hblock.
Qed.

(** C1, amended.  Whenever the history poller is not loading and holds no
    error message, in particular after every successful fetch, it renders
    the chart view, and for the temperatures sequence it holds: if the
    sequence is empty there is no statistics block; if it is not, the block
    is there, its current is the last element to one decimal when that is a
    number and nothing when it is null, and, when every element is a
    number, its average is the values summed up from 0 and divided by the
    length and its range the greatest member minus the least member, each
    to one decimal.  A successful fetch of [18, 20, 22] renders 22.0, 20.0
    and 4.0, and one of [19.5] renders 19.5, 19.5 and 0.0. *)
Theorem rendered_statistics :
  (forall (h : host) (s : Chart.state),
      Chart.loading s = false ->
      truthy (Chart.error s) = false ->
      exists c,
        Chart.TemperatureChart h s = Chart.ChartView c /\
        match Chart.temperatures (Chart.temperatureData s) with
        | [] => Chart.block c = None
        | x :: xs =>
            exists figures,
              Chart.block c = Some figures /\
              Chart.current figures =
                match last (x :: xs) x with
                | Chart.SNum y => Some (toFixed1 y)
                | Chart.SNull => None
                end /\
              forall l : list number,
                x :: xs = map Chart.SNum l ->
                no_nan l ->
                exists hi lo : number,
                  In hi l /\ In lo l /\
                  (forall y, In y l -> leb y hi = true /\ leb lo y = true) /\
                  Chart.average figures =
                    toFixed1 (Num.div (fold_left Num.add l Num.zero)
                                      (Num.of_Z (Z.of_nat (List.length l)))) /\
                  Chart.range figures = toFixed1 (Num.sub hi lo)
        end) /\
  (forall (o : outcome Chart.payload) (r : Chart.payload) (s : Chart.state),
      awaited o = Normal r ->
      Chart.loading (fst (Chart.fetchTemperatureHistory o s)) = false /\
      truthy (Chart.error (fst (Chart.fetchTemperatureHistory o s))) = false /\
      Chart.temperatures (Chart.temperatureData (fst (Chart.fetchTemperatureHistory o s)))
      = Chart.or_empty (Chart.lastTemperatures r)) /\
  (forall (h : host) (s : Chart.state) (stamps : option (list jsval)) (n : jsval),
      exists c,
        Chart.TemperatureChart h
          (fst (Chart.fetchTemperatureHistory
                  (Response 200 (Json
                     {| Chart.lastTimestamps := stamps;
                        Chart.lastTemperatures :=
                          Some (map Chart.SNum [Num.of_Z 18; Num.of_Z 20; Num.of_Z 22]);
                        Chart.result_count := n |})) s))
        = Chart.ChartView c /\
        Chart.block c = Some {| Chart.current := Some (Text "22.0");
                                Chart.average := Text "20.0";
                                Chart.range := Text "4.0" |}) /\
  (forall (h : host) (s : Chart.state) (stamps : option (list jsval)) (n : jsval),
      exists c,
        Chart.TemperatureChart h
          (fst (Chart.fetchTemperatureHistory
                  (Response 200 (Json
                     {| Chart.lastTimestamps := stamps;
                        Chart.lastTemperatures :=
                          Some [Chart.SNum (Num.of_dyadic 39 (-1))];
                        Chart.result_count := n |})) s))
        = Chart.ChartView c /\
        Chart.block c = Some {| Chart.current := Some (Text "19.5");
                                Chart.average := Text "19.5";
                                Chart.range := Text "0.0" |}).
Proof.
  split; [|split; [|split]].
  - intros h s Hloading Herror.
    unfold Chart.TemperatureChart. rewrite Hloading, Herror.
    eexists. split; [reflexivity|]. cbn [Chart.block].
    destruct (Chart.temperatures (Chart.temperatureData s)) as [|x xs];
      [reflexivity|].
    rewrite statistics_nonempty. eexists. split; [reflexivity|].
    cbn [Chart.current Chart.average Chart.range Chart.optional_toFixed1].
    split; [now destruct (last (x :: xs) x)|].
    intros l Hl Hnan. rewrite Hl.
    destruct l as [|y ys]; [discriminate Hl|].
    destruct (max_is_greatest y ys Hnan) as [Hhi Hmax].
    destruct (min_is_least y ys Hnan) as [Hlo Hmin].
    exists (Chart.max_from Num.neg_Infinity (y :: ys)),
           (Chart.min_from Num.Infinity (y :: ys)).
    repeat split; auto.
    + rewrite reduce_sum_numbers. unfold Chart.length. now rewrite length_map.
    + unfold Chart.Math_max, Chart.Math_min. now rewrite coerced_numbers.
  - intros o r s Ho. rewrite (chart_success o r s Ho). repeat split.
  - intros h s stamps n. eexists. split; [reflexivity|].
    cbn [Chart.block fetched Chart.temperatures Chart.temperatureData
         Chart.or_empty Chart.lastTemperatures fst].
    exact (proj1 (proj2 statistics_of_window)).
  - intros h s stamps n. eexists. split; [reflexivity|].
    cbn [Chart.block fetched Chart.temperatures Chart.temperatureData
         Chart.or_empty Chart.lastTemperatures fst].
    exact (proj2 (proj2 statistics_of_window)).
Qed.

(** The history poller after the successful fetch of its sample run. *)
Lemma rendered_statistics_witness :
  exists i c figures,
    Chart.run Chart.mount Chart.sample_run = Some i /\
    Chart.TemperatureChart UtcHost.utc (Poller.hooks i) = Chart.ChartView c /\
    Chart.block c = Some figures /\
    Chart.current figures = Some (Text "21.0").
Proof.
  eexists. 
  destruct (proj1 rendered_statistics UtcHost.utc
              (fst (Poller.settle_each Chart.fetchTemperatureHistory
                      (outcomes Chart.sample_run) Chart.initial))
              eq_refl eq_refl) as (c & Hview & figures & Hblock & Hcurrent & _).
  exists c, figures.
  split; [reflexivity|]. split; [exact Hview|]. split; [exact Hblock|].
  exact Hcurrent.
Defined.
